(** * VerticaPy: the type-casting core of [vDataColumn]

    A shallow embedding of [verticapy/core/vdataframe/_typing.py]
    (class [vDCTyping]): the per-column transformation chain [_transf],
    the cast operation [astype] and the read-only accessors [category],
    [ctype], [isarray], [isbool], [isdate], [isnum] and [isvmap].

    Python strings are modelled as [string] (sequences of ASCII
    characters); the mutable objects the method touches (the column's
    chain, the parent's history) and the traffic with the database engine
    are gathered in a [world] that is threaded through a small
    state-and-exception monad.  Unlike a transactional monad, a raised
    exception keeps the world reached so far, as Python does. *)

From Stdlib Require Import String Ascii List Arith Bool Lia.
Import ListNotations.
Open Scope list_scope.
Open Scope string_scope.

(** ** Python string primitives used by the source *)

Module PyStr.

Definition nl : string := String (ascii_of_nat 10) EmptyString.

Fixpoint sp (n : nat) : string :=
  match n with
  | O => EmptyString
  | S k => String " " (sp k)
  end.

(** A line break inside a triple-quoted literal, followed by the
    indentation of the next source line. *)
Definition br (indent : nat) : string := nl ++ sp indent.

(** [s.startswith(p)] *)
Definition startswith (s p : string) : bool := prefix p s.

(** [s[i:j]] for [0 <= i], [0 <= j]. *)
Definition slice (i j : nat) (s : string) : string := substring i (j - i) s.

(** [s[i:-1]] *)
Definition slice_to_last (i : nat) (s : string) : string :=
  substring i (String.length s - 1 - i) s.

(** [s[0]], where the source has checked that [s] is not empty. *)
Definition first_char (s : string) : string :=
  match s with
  | EmptyString => EmptyString
  | String c _ => String c EmptyString
  end.

(** [s[-1]], where the source has checked that [s] is not empty. *)
Fixpoint last_char (s : string) : string :=
  match s with
  | EmptyString => EmptyString
  | String c EmptyString => String c EmptyString
  | String _ s' => last_char s'
  end.

(** [str.count]: the number of non-overlapping occurrences of [sub],
    scanning from the left.  [skip] is the number of characters still
    covered by the occurrence counted last. *)
Fixpoint count_from (sub s : string) (skip : nat) : nat :=
  match s with
  | EmptyString => if Nat.eqb skip 0 && prefix sub EmptyString then 1 else 0
  | String _ s' =>
      match skip with
      | S k => count_from sub s' k
      | O =>
          if prefix sub s
          then S (count_from sub s' (String.length sub - 1))
          else count_from sub s' 0
      end
  end.

Definition count (s sub : string) : nat := count_from sub s 0.

(** [s.replace(" ", "")] *)
Fixpoint remove_spaces (s : string) : string :=
  match s with
  | EmptyString => EmptyString
  | String c s' =>
      if Ascii.eqb c " " then remove_spaces s' else String c (remove_spaces s')
  end.

(** The ASCII characters [str.isspace] accepts. *)
Definition isspace (c : ascii) : bool :=
  let n := nat_of_ascii c in
  (((9 <=? n) && (n <=? 13)) || ((28 <=? n) && (n <=? 32)))%nat.

Fixpoint lstrip (s : string) : string :=
  match s with
  | EmptyString => EmptyString
  | String c s' => if isspace c then lstrip s' else s
  end.

Fixpoint rstrip (s : string) : string :=
  match s with
  | EmptyString => EmptyString
  | String c s' =>
      match rstrip s' with
      | EmptyString => if isspace c then EmptyString else String c EmptyString
      | r => String c r
      end
  end.

(** [s.strip()] *)
Definition strip (s : string) : string := rstrip (lstrip s).

Definition lower_char (c : ascii) : ascii :=
  let n := nat_of_ascii c in
  if ((65 <=? n) && (n <=? 90))%nat then ascii_of_nat (n + 32) else c.

(** [s.lower()] *)
Fixpoint lower (s : string) : string :=
  match s with
  | EmptyString => EmptyString
  | String c s' => String (lower_char c) (lower s')
  end.

End PyStr.
Import PyStr.

(** ** Exceptions *)

Inductive exn_kind : Type :=
| ConversionError
| UnsupportedEngineVersion
| EngineError
| AttributeError
| IndexError
| FormatError.

(** An exception object: its class and the text [str(e)] yields. *)
Record exn : Type := Exn { kind : exn_kind; message : string }.

(** ** The data model *)

(** One element of [_transf]: the tuple
    [(expression template, declared SQL type, category)]. *)
Record entry : Type := Entry {
  template : string;
  declared : string;
  categ : string
}.

Definition version : Type := (nat * nat * nat)%type.

(** What one call can observe or change: the column's chain, the
    queries sent to the engine so far (oldest first) and the parent's
    history. *)
Record world : Type := World {
  _transf : list entry;
  queries : list string;
  history : list string
}.

(** ** The monad of a method call *)

Definition M (A : Type) : Type := world -> world * (exn + A).

Definition ret {A : Type} (a : A) : M A := fun w => (w, inr a).

Definition raise {A : Type} (e : exn) : M A := fun w => (w, inl e).

Definition bind {A B : Type} (m : M A) (k : A -> M B) : M B :=
  fun w =>
    match m w with
    | (w', inr a) => k a w'
    | (w', inl e) => (w', inl e)
    end.

(** [try: m  except Exception as e: h e] *)
Definition try_except {A : Type} (m : M A) (h : exn -> M A) : M A :=
  fun w =>
    match m w with
    | (w', inl e) => h e w'
    | r => r
    end.

Declare Scope py_scope.
Delimit Scope py_scope with py.
Notation "x <- c ;; k" := (bind c (fun x => k))
  (at level 100, c at next level, right associativity) : py_scope.
Notation "c ;;; k" := (bind c (fun _ => k))
  (at level 100, right associativity) : py_scope.
Open Scope py_scope.

Definition lift {A : Type} (r : exn + A) : M A := fun w => (w, r).

(** ** Collaborators

    [astype] calls functions that live in other modules of the package
    ([verticapy._utils...], [verticapy.sql.flex]) and methods of Python
    itself.  They are taken as an interface; every theorem of the cast
    holds for all of its implementations.

    - [to_sql_dtype], [to_category], [guess_sep], [clean_query]: the
      imported helpers of the same names;
    - [format t a]: Python's [t.format(a)];
    - [_genSQL t]: [self._parent._genSQL()], the current view of the
      owning table, which depends on the column's chain [t];
    - [execute log q]: the engine's answer to the query [q] sent after
      the queries [log], either an exception or the first element of the
      result ([None] when there is no row);
    - [version_sql], [engine_version], [version_error]: the text of the
      engine-version query, the engine's answer to it and the text of the
      exception raised by the version gate;
    - [flex_isvmap column expr]: [verticapy.sql.flex.isvmap]. *)
Class Env : Type := {
  to_sql_dtype : string -> string;
  to_category : string -> string;
  guess_sep : string -> string;
  clean_query : string -> string;
  format : string -> string -> exn + string;
  _genSQL : list entry -> string;
  execute : list string -> string -> exn + option string;
  version_sql : string;
  engine_version : list string -> exn + version;
  version_error : version -> version -> string;
  flex_isvmap : string -> string -> M bool
}.

Section Typing.

Context {E : Env}.

(** *** Reading and writing the world *)

Definition self_transf : M (list entry) := fun w => (w, inr (_transf w)).

Definition log_query (q : string) (w : world) : world :=
  World (_transf w) (queries w ++ [q]) (history w).

(** [self._transf += [e]] *)
Definition append_transf (e : entry) : M unit :=
  fun w => (World (_transf w ++ [e]) (queries w) (history w), inr tt).

(** [self._parent._add_to_history(msg)] *)
Definition _add_to_history (msg : string) : M unit :=
  fun w => (World (_transf w) (queries w) (history w ++ [msg]), inr tt).

(** [_executeSQL(query, ...)]: one round trip to the engine.  The
    title and the [sql_push_ext]/[symbol] options do not reach the
    model. *)
Definition _executeSQL (query : string) : M (option string) :=
  fun w => (log_query query w, execute (queries w) query).

(** [v >= condition] in the lexicographic order of version triples. *)
Definition version_geb (v condition : version) : bool :=
  let '(v1, v2, v3) := v in
  let '(c1, c2, c3) := condition in
  ((c1 <? v1) || ((c1 =? v1) && ((c2 <? v2) || ((c2 =? v2) && (c3 <=? v3)))))%nat.

(** Modelled from the spec: [vertica_version] is imported from
    [verticapy._utils._sql._vertica_version], whose code is not embedded
    here.  Following the specification, the gate sends an engine-version
    query that returns a version triple and raises
    [UnsupportedEngineVersion] when the triple is below the required
    minimum. *)
Definition vertica_version (condition : version) : M version :=
  v <- (fun w => (log_query version_sql w, engine_version (queries w))) ;;
  if version_geb v condition
  then ret v
  else raise (Exn UnsupportedEngineVersion (version_error v condition)).

(** *** Accessors *)

(** [t[-1]] *)
Fixpoint last_entry (t : list entry) : exn + entry :=
  match t with
  | [] => inl (Exn IndexError "list index out of range")
  | [e] => inr e
  | _ :: t' => last_entry t'
  end.

(** [self._transf[-1][2]] *)
Definition category : M string :=
  t <- self_transf ;;
  e <- lift (last_entry t) ;;
  ret (categ e).

(** [self._transf[-1][1].lower()] *)
Definition ctype : M string :=
  t <- self_transf ;;
  e <- lift (last_entry t) ;;
  ret (lower (declared e)).

Definition isarray : M bool :=
  c <- ctype ;;
  ret (lower (slice 0 5 c) =? "array").

Definition isbool : M bool :=
  c <- ctype ;;
  ret (slice 0 4 c =? "bool").

Definition isdate : M bool :=
  c <- category ;;
  ret (c =? "date").

Definition isnum : M bool :=
  c <- category ;;
  ret ((c =? "float") || (c =? "int")).

(** [self.category() == "vmap" or isvmap(column=..., expr=...)] *)
Definition isvmap (_alias : string) : M bool :=
  c <- category ;;
  if c =? "vmap"
  then ret true
  else
    t <- self_transf ;;
    flex_isvmap _alias (_genSQL t).

End Typing.

(** ** The cast: [vDCTyping.astype] *)

Section Cast.

Context {E : Env}.

(** The format-inference probe (source lines 200-205). *)
Definition biggest_str_query (_alias table : string) : string :=
  br 20 ++ "SELECT " ++
  br 24 ++ _alias ++ " " ++
  br 20 ++ "FROM " ++ table ++ " " ++
  br 20 ++ "ORDER BY LENGTH(" ++ _alias ++ ") DESC " ++
  br 20 ++ "LIMIT 1".

(** The validation probe (source lines 265-271). *)
Definition testing_query (expression _alias table : string) : string :=
  br 16 ++ "SELECT " ++
  br 20 ++ "/*+LABEL('vDataColumn.astype')*/ " ++
  br 20 ++ expression ++ " AS " ++ _alias ++ " " ++
  br 16 ++ "FROM " ++ table ++ " " ++
  br 16 ++ "WHERE " ++ _alias ++ " IS NOT NULL " ++
  br 16 ++ "LIMIT 20".

(** [len(s) > 2 and s[0] == o and s[-1] == c] *)
Definition enclosed (o c s : string) : bool :=
  (2 <? String.length s)%nat && (first_char s =? o) && (last_char s =? c).

Definition mapjsonextractor : string :=
  "MAPJSONEXTRACTOR({} " ++
  br 52 ++ "USING PARAMETERS flatten_maps=false)".

(** [len(dtype) > 4 and dtype[:5] == "vmap(" and dtype[-1] == ")"] *)
Definition compound_vmap (dtype : string) : bool :=
  (4 <? String.length dtype)%nat
  && (slice 0 5 dtype =? "vmap(")
  && (last_char dtype =? ")").

Definition header_names (dtype : string) : string :=
  if compound_vmap dtype
  then ", header_names='" ++ slice_to_last 5 dtype ++ "'"
  else "".

Definition mapdelimitedextractor (sep dtype : string) : string :=
  "MAPDELIMITEDEXTRACTOR({} " ++
  br 60 ++ "USING PARAMETERS " ++
  br 60 ++ "delimiter='" ++ sep ++ "'" ++
  br 60 ++ header_names dtype ++ ")".

Definition collection_null_element (sep biggest_str : string) : string :=
  if (0 <? count (remove_spaces biggest_str) (sep ++ sep))%nat
  then ", collection_null_element=''"
  else "".

Definition bracketed (biggest_str : string) : bool :=
  enclosed "(" ")" biggest_str || enclosed "{" "}" biggest_str.

Definition collection_open (biggest_str : string) : string :=
  if bracketed biggest_str
  then ", collection_open='" ++ first_char biggest_str ++ "'"
  else "".

Definition collection_close (biggest_str : string) : string :=
  if bracketed biggest_str
  then ", collection_close='" ++ last_char biggest_str ++ "'"
  else "".

Definition string_to_array (sep biggest_str : string) : string :=
  br 24 ++ "STRING_TO_ARRAY({} " ++
  br 40 ++ "USING PARAMETERS " ++
  br 40 ++ "collection_delimiter='" ++ sep ++ "'" ++
  br 40 ++ collection_open biggest_str ++
  br 40 ++ collection_close biggest_str ++
  br 40 ++ collection_null_element sep biggest_str ++ ")".

Definition maptostring_cast (dtype : string) : string :=
  "MAPTOSTRING({} " ++
  br 51 ++ "USING PARAMETERS " ++
  br 51 ++ "canonical_json=false)::" ++ dtype.

Definition maptostring_json : string :=
  "MAPTOSTRING({} USING PARAMETERS canonical_json=true)".

(** [x and self.category() == c]: the category is read only when [x]
    holds. *)
Definition and_category (x : bool) (c : string) : M bool :=
  if x then (k <- category ;; ret (k =? c)) else ret false.

(** [biggest_str.strip()], where [biggest_str] is what
    [fetchfirstelem] returned. *)
Definition strip_result (r : option string) : M string :=
  match r with
  | Some s => ret (strip s)
  | None =>
      raise (Exn AttributeError "'NoneType' object has no attribute 'strip'")
  end.

(** Source lines 195-262: the choice of the expression template.  The
    result is the pair of [transformation_2] and the value the local
    variable [dtype] holds when line 263 is reached. *)
Definition choose_transformation (_alias dtype : string) : M (string * string) :=
  text_source <- and_category ((dtype =? "array") || startswith dtype "vmap") "text" ;;
  if text_source then
    (if dtype =? "array" then (vertica_version (10, 0, 0) ;;; ret tt) else ret tt) ;;;
    t <- self_transf ;;
    r <- _executeSQL (biggest_str_query _alias (_genSQL t)) ;;
    biggest_str <- strip_result r ;;
    let sep := guess_sep biggest_str in
    if startswith dtype "vmap" then
      if enclosed "{" "}" biggest_str
      then ret (mapjsonextractor, "vmap")
      else ret (mapdelimitedextractor sep dtype, "vmap")
    else
      (* [elif dtype == "array"], which holds here *)
      ret (string_to_array sep biggest_str, dtype)
  else
    vmap_source <-
      and_category ((slice 0 7 dtype =? "varchar") || (slice 0 4 dtype =? "char")) "vmap" ;;
    if vmap_source then ret (maptostring_cast dtype, dtype)
    else if dtype =? "json" then
      k <- category ;;
      if k =? "vmap"
      then ret (maptostring_json, "varchar")
      else (vertica_version (10, 1, 0) ;;; ret ("TO_JSON({})", "varchar"))
    else ret ("{}::" ++ dtype, dtype).

(** Source lines 263-282: validation and commit. *)
Definition validate_and_append (_alias transformation_2 dtype : string) : M unit :=
  let transformation_2 := clean_query transformation_2 in
  expression <- lift (format transformation_2 _alias) ;;
  t <- self_transf ;;
  _executeSQL (testing_query expression _alias (_genSQL t)) ;;;
  append_transf (Entry transformation_2 dtype (to_category dtype)) ;;;
  _add_to_history
    ("[AsType]: The vDataColumn " ++ _alias ++ " was converted to " ++ dtype ++ ".").

(** The [except Exception as e] clause (source lines 283-286), with
    the value of [dtype] at the point of failure. *)
Definition conversion_error {A : Type} (_alias dtype : string) (e : exn) : M A :=
  raise (Exn ConversionError
           (message e ++ nl ++ "The vDataColumn " ++ _alias ++
            " can not be converted to " ++ dtype)).

(** The category a call finds: that of the last entry. *)
Definition current_category (w : world) : string :=
  match last_entry (_transf w) with
  | inr e => categ e
  | inl _ => ""
  end.

(** The value of [dtype] that line 278 records for a normalised
    request [dtype]: lines 225 and 260 replace it by ["vmap"] and
    ["varchar"]. *)
Definition recorded_dtype (dtype : string) (w : world) : string :=
  if ((dtype =? "array") || startswith dtype "vmap") && (current_category w =? "text")
  then (if startswith dtype "vmap" then "vmap" else dtype)
  else if dtype =? "json" then "varchar" else dtype.

(** [astype].  The single [try] block of the source is written as two
    consecutive ones because the handler reads the local variable
    [dtype], which lines 225 and 260 reassign: every statement of
    [choose_transformation] that can raise runs before the
    reassignment, every statement of [validate_and_append] after it. *)
Definition astype (_alias dtype : string) : M unit :=
  let dtype := to_sql_dtype dtype in
  r <- try_except (choose_transformation _alias dtype) (conversion_error _alias dtype) ;;
  let '(transformation_2, dtype') := r in
  try_except (validate_and_append _alias transformation_2 dtype')
             (conversion_error _alias dtype').

End Cast.

(** ** Helpers of the package modelled from the specification *)

Module Parsers.

(** Modelled from the spec: [guess_sep] is imported from
    [verticapy._utils._parsers], whose code is not embedded here.  The
    specification gives the rule: a fixed priority-ordered list of
    delimiter candidates is tested against the sample and the first
    candidate whose occurrence count is non-zero and maximal is chosen.
    [best] keeps the candidate found so far and is replaced only by a
    strictly larger count, so that among equal counts the earlier
    candidate wins. *)
Fixpoint guess_sep_from (candidates : list string) (best file_str : string) : string :=
  match candidates with
  | [] => best
  | s :: rest =>
      if (count file_str best <? count file_str s)%nat
      then guess_sep_from rest s file_str
      else guess_sep_from rest best file_str
  end.

(** Modelled from the spec: the candidates of [guess_sep].  The
    specification names [","], [";"] and ["|"] as delimiters and states
    that [","] has priority over [";"]. *)
Definition delimiter_candidates : list string := [","; "|"; ";"].

(** Modelled from the spec: [guess_sep] over a list of candidates.
    When no candidate occurs in the sample, a case the specification
    leaves open, the candidate of highest priority is returned. *)
Definition guess_sep_in (candidates : list string) (file_str : string) : string :=
  match candidates with
  | [] => ""
  | s :: rest => guess_sep_from rest s file_str
  end.

(** Modelled from the spec: [guess_sep] itself. *)
Definition guess_sep (file_str : string) : string :=
  guess_sep_in delimiter_candidates file_str.

End Parsers.

Module SqlCast.

(** Modelled from the spec: [to_sql_dtype] is imported from
    [verticapy._utils._sql._cast], whose code is not embedded here.  The
    specification asks for the requested type to be trimmed and
    lower-cased. *)
Definition to_sql_dtype (dtype : string) : string := lower (strip dtype).

(** Modelled from the spec: the classification table of [to_category],
    as type families, recognised by the leading characters of the type
    label, and their categories. *)
Definition families : list (string * string) :=
  [ ("vmap", "vmap"); ("array", "text");
    ("int", "int"); ("float", "float"); ("date", "date");
    ("varchar", "text"); ("char", "text"); ("text", "text");
    ("binary", "binary"); ("spatial", "spatial"); ("uuid", "uuid") ].

(** Modelled from the spec: the look-up in the table; a label of no
    family is [undefined]. *)
Fixpoint classify (table : list (string * string)) (ctype : string) : string :=
  match table with
  | [] => "undefined"
  | (family, c) :: rest =>
      if startswith ctype family then c else classify rest ctype
  end.

(** Modelled from the spec: [to_category] is imported from
    [verticapy._utils._sql._cast], whose code is not embedded here.  The
    specification describes the table: [vmap] is classified as [vmap],
    [array] is not a category of its own and keeps [text], the int,
    float, date, text, binary, spatial and uuid families are mapped
    directly, and an unknown label is [undefined]. *)
Definition to_category (ctype : string) : string := classify families ctype.

End SqlCast.

Module PyFormat.

Definition on_result (f : string -> string) (r : exn + string) : exn + string :=
  match r with
  | inl e => inl e
  | inr s => inr (f s)
  end.

(** Python's [template.format(arg)] on the templates the cast builds:
    [{{] and [}}] stand for one brace, the first [{}] is replaced by
    [arg], a second [{}] has no argument left ([IndexError]), a lone
    [}] is a [ValueError].  Any other replacement field is reported as
    an error as well; Python does so unless the field names the
    argument explicitly ([{0}], [{0:...}], [{0!r}]), a form that none
    of the templates evaluated in this development contains.  All of
    these errors are rendered with kind [FormatError]. *)
Fixpoint format_from (used : bool) (template arg : string) : exn + string :=
  match template with
  | EmptyString => inr EmptyString
  | String "{" (String "{" rest) =>
      on_result (String "{") (format_from used rest arg)
  | String "{" (String "}" rest) =>
      if used
      then inl (Exn FormatError "Replacement index 1 out of range for positional args tuple")
      else on_result (append arg) (format_from true rest arg)
  | String "{" _ => inl (Exn FormatError "unsupported replacement field")
  | String "}" (String "}" rest) =>
      on_result (String "}") (format_from used rest arg)
  | String "}" _ => inl (Exn FormatError "Single '}' encountered in format string")
  | String c rest => on_result (String c) (format_from used rest arg)
  end.

Definition format (template arg : string) : exn + string :=
  format_from false template arg.

End PyFormat.

(** ** Concrete collaborators for the scenarios of the specification *)

Module Scenario.

(** [s.endswith(p)] *)
Definition endswith (s p : string) : bool :=
  substring (String.length s - String.length p) (String.length p) s =? p.

(** An engine that reports the version [v], answers the
    format-inference probe with [biggest] and answers the validation
    probe with the exception text [rejection], if there is one.  The
    two probes are told apart by their [LIMIT]. *)
Definition engine (biggest : option string) (rejection : option string)
                  (log : list string) (query : string) : exn + option string :=
  if endswith query "LIMIT 20" then
    match rejection with
    | Some text => inl (Exn EngineError text)
    | None => inr None
    end
  else inr biggest.

(** Modelled from the spec: the collaborators of the scenarios.  They
    are the helpers modelled above, a [clean_query] that leaves the text
    as it is (the specification does not describe it), a table
    [public.t] whose view does not mention the pending transformations,
    and a flex check that finds no map. *)
Definition env (v : version) (biggest rejection : option string) : Env := {|
  to_sql_dtype := SqlCast.to_sql_dtype;
  to_category := SqlCast.to_category;
  guess_sep := Parsers.guess_sep;
  clean_query := fun q => q;
  format := PyFormat.format;
  _genSQL := fun _ => "public.t";
  execute := engine biggest rejection;
  version_sql := "SELECT version();";
  engine_version := fun _ => inr v;
  version_error := fun _ _ => "This Function is not available for this engine version.";
  flex_isvmap := fun _ _ => ret false
|}.

(** Modelled from the spec: [isvmap] of [verticapy.sql.flex], whose
    code is not embedded here, as a check that asks the engine about the
    column of the relation it is given (the specification lets probes
    decide the JSON-ness of a column) and finds no map. *)
Definition asking_isvmap (column expr : string) : M bool :=
  fun w =>
    (log_query ("SELECT MAPVERSION(" ++ column ++ ") FROM " ++ expr ++ " LIMIT 1") w,
     inr false).

Definition asking_env : Env := {|
  to_sql_dtype := SqlCast.to_sql_dtype;
  to_category := SqlCast.to_category;
  guess_sep := Parsers.guess_sep;
  clean_query := fun q => q;
  format := PyFormat.format;
  _genSQL := fun _ => "public.t";
  execute := fun _ _ => inr None;
  version_sql := "SELECT version();";
  engine_version := fun _ => inr (12, 0, 0);
  version_error := fun _ _ => "";
  flex_isvmap := asking_isvmap
|}.

(** An engine of version 12.0.0 and one of version 9.3.0. *)
Definition modern (biggest rejection : option string) : Env :=
  env (12, 0, 0) biggest rejection.

Definition legacy (biggest rejection : option string) : Env :=
  env (9, 3, 0) biggest rejection.

(** A column declared [varchar], hence of category [text], no query
    sent yet. *)
Definition text_column : world :=
  World [Entry "{}" "varchar" "text"] [] [].

Definition vmap_column : world :=
  World [Entry "{}" "varchar" "text"; Entry "MAPJSONEXTRACTOR({})" "vmap" "vmap"] [] [].

End Scenario.


(** * Connection files: [verticapy/connect/read.py] *)

From Stdlib Require Import NArith ZArith DecimalString.

Module Connect.

(** The values a connection dictionary holds. *)
Inductive value : Type :=
| VInt (n : N)
| VStr (s : string)
| VBool (b : bool).

Inductive error : Type :=
| ParameterError (msg : string)
| NameError (msg : string)
| ExecError (msg : string).

(** A Python [dict] with string keys, in insertion order. *)
Definition dict : Type := list (string * value).

(** [d[key] = v]: an existing key keeps its place. *)
Fixpoint dict_set (key : string) (v : value) (d : dict) : dict :=
  match d with
  | [] => [(key, v)]
  | (k, x) :: d' =>
      if k =? key then (key, v) :: d' else (k, x) :: dict_set key v d'
  end.


(** What the module uses of a [ConfigParser]: its sections, in order,
    each with the options [items] yields. *)
Definition confparser : Type := list (string * list (string * string)).

Definition has_section (p : confparser) (section : string) : bool :=
  existsb (fun s => fst s =? section) p.

Fixpoint remove_section (p : confparser) (section : string) : confparser :=
  match p with
  | [] => []
  | s :: p' => if fst s =? section then p' else s :: remove_section p' section
  end.

Definition sections (p : confparser) : list string := map fst p.

Fixpoint items (p : confparser) (section : string) : list (string * string) :=
  match p with
  | [] => []
  | s :: p' => if fst s =? section then snd s else items p' section
  end.

(** What the module takes from outside: [get_confparser] of
    [verticapy.connect.utils], [os.getenv], the two constants of
    [verticapy.connect.connect], and the value the [exec] of an
    assignment [id_port = '...'] leaves in [id_port]. *)
Class Host : Type := {
  get_confparser : string -> confparser;
  getenv : string -> option string;
  SESSION_LABEL : string;
  VERTICAPY_AUTO_CONNECTION : string;
  exec_id_port : string -> error + value
}.

Section Read.

Context {H : Host}.

(** [get_confparser()], called without a path. *)
Definition available_connections : list string :=
  let confparser := get_confparser "" in
  let confparser :=
    if has_section confparser VERTICAPY_AUTO_CONNECTION
    then remove_section confparser VERTICAPY_AUTO_CONNECTION
    else confparser in
  sections confparser.

(** [x in (a, b, ...)] *)
Definition in_tuple (x : string) (t : list string) : bool :=
  existsb (String.eqb x) t.

(** [sub in s] *)
Definition contains (sub s : string) : bool :=
  match index 0 sub s with
  | Some _ => true
  | None => false
  end.

(** [v.lower() in ("true", "t", "yes", "y")] *)
Definition truthy (v : string) : bool :=
  in_tuple (lower v) ["true"; "t"; "yes"; "y"].

Definition isdigit (c : ascii) : bool :=
  let n := nat_of_ascii c in ((48 <=? n) && (n <=? 57))%nat.

Fixpoint all_digits (s : string) : bool :=
  match s with
  | EmptyString => true
  | String c s' => isdigit c && all_digits s'
  end.

(** [s.isnumeric()], on ASCII strings. *)
Definition isnumeric (s : string) : bool :=
  negb (s =? "") && all_digits s.

Fixpoint int_from (acc : N) (s : string) : N :=
  match s with
  | EmptyString => acc
  | String c s' => int_from (10 * acc + N.of_nat (nat_of_ascii c - 48)) s'
  end.

(** [int(s)] for a string of digits. *)
Definition int (s : string) : N := int_from 0 s.

(** The first loop (source lines 74-79): the first option whose name
    starts with [env] decides, and ends the loop. *)
Fixpoint env_flag (options : list (string * string)) : bool :=
  match options with
  | [] => false
  | (option_name, option_val) :: rest =>
      if startswith (lower option_name) "env"
      then truthy option_val
      else env_flag rest
  end.

Definition missing_variable (option_name option_val : string) : string :=
  "The '" ++ option_name ++ "' environment variable " ++
  "'" ++ option_val ++ "' does not exist and the 'env' " ++
  "option is set to True." ++ nl ++ "Impossible to set up " ++
  "the final DSN." ++ nl ++ "Tips: You can manually set " ++
  "it up by importing os and running the following " ++
  "command:" ++ nl ++ "os.environ['" ++ option_name ++ "'] = '******'".

(** The body of the second loop (source lines 81-139). *)
Definition set_option (env : bool) (option_name option_val : string)
           (conn_info : dict) : error + dict :=
  let option_name := lower option_name in
  if in_tuple option_name ["pwd"; "password"; "uid"; "user"] && env then
    let option_name :=
      if option_name =? "pwd" then "password"
      else if option_name =? "uid" then "user"
      else option_name in
    match getenv option_val with
    | Some x => inr (dict_set option_name (VStr x) conn_info)
    | None => inl (ParameterError (missing_variable option_name option_val))
    end
  else if in_tuple option_name ["servername"; "server"] then
    inr (dict_set "host" (VStr option_val) conn_info)
  else if option_name =? "uid" then
    inr (dict_set "user" (VStr option_val) conn_info)
  else if in_tuple option_name ["port"; "connection_timeout"] && isnumeric option_val then
    inr (dict_set option_name (VInt (int option_val)) conn_info)
  else if option_name =? "pwd" then
    inr (dict_set "password" (VStr option_val) conn_info)
  else if option_name =? "backup_server_node" then
    match exec_id_port option_val with
    | inr x => inr (dict_set "backup_server_node" x conn_info)
    | inl e => inl e
    end
  else if option_name =? "kerberosservicename" then
    inr (dict_set "kerberos_service_name" (VStr option_val) conn_info)
  else if option_name =? "kerberoshostname" then
    inr (dict_set "kerberos_host_name" (VStr option_val) conn_info)
  else if contains "vp_test_" option_name then
    inr (dict_set (substring 8 (String.length option_name - 8) option_name)
                  (VStr option_val) conn_info)
  else if in_tuple option_name
            ["ssl"; "autocommit"; "use_prepared_statements";
             "connection_load_balance"; "disable_copy_local"] then
    inr (dict_set option_name (VBool (truthy option_val)) conn_info)
  else if negb (option_name =? "session_label") && negb (startswith option_name "env") then
    inr (dict_set option_name (VStr option_val) conn_info)
  else inr conn_info.

(** The second loop: an exception ends it. *)
Fixpoint set_options (env : bool) (options : list (string * string))
         (conn_info : dict) : error + dict :=
  match options with
  | [] => inr conn_info
  | (option_name, option_val) :: rest =>
      match set_option env option_name option_val conn_info with
      | inr conn_info' => set_options env rest conn_info'
      | inl e => inl e
      end
  end.

Definition default_conn_info : dict :=
  [("port", VInt 5433); ("user", VStr "dbadmin"); ("session_label", VStr SESSION_LABEL)].

Definition read_dsn (section dsn : string) : error + dict :=
  let confparser := get_confparser dsn in
  if has_section confparser section then
    let options := items confparser section in
    set_options (env_flag options) options default_conn_info
  else inl (NameError ("The DSN Section '" ++ section ++ "' doesn't exist.")).

End Read.



(** A host for examples: one connection file, whatever the path, and
    an [exec] that returns the text between the quotes. *)
Definition example_host (file : confparser) (environ : list (string * string)) : Host := {|
  get_confparser := fun _ => file;
  getenv := fun name =>
    match find (fun kv => fst kv =? name) environ with
    | Some kv => Some (snd kv)
    | None => None
    end;
  SESSION_LABEL := "verticapy-session";
  VERTICAPY_AUTO_CONNECTION := "VERTICAPY_AUTO_CONNECTION";
  exec_id_port := fun v => inr (VStr v)
|}.

Definition example_file : confparser :=
  [ ("VERTICAPY_AUTO_CONNECTION", [("name", "prod")]);
    ("prod",
     [ ("Env", "Yes"); ("host", "10.0.0.1"); ("port", "5433");
       ("uid", "VERTICA_USER"); ("pwd", "VERTICA_PWD"); ("ssl", "True") ]);
    ("dev",
     [ ("servername", "localhost"); ("port", "54e3"); ("uid", "dbadmin");
       ("pwd", "secret"); ("autocommit", "on") ]) ].

(** The example file on a machine where both variables are set, and on
    one where the password is not. *)
Definition host : Host :=
  example_host example_file [("VERTICA_USER", "alice"); ("VERTICA_PWD", "pw")].

Definition bare_host : Host := example_host example_file [("VERTICA_USER", "alice")].

End Connect.

(** * The dataframe methods: [vDFTyping] *)

(** A [vDataFrame], as far as the typing methods are concerned: its
    columns in order, each found under its alias with its chain, the
    queries sent so far and the history.  A column and its parent share
    the queries and the history. *)
Record vDataFrame : Type := DataFrame {
  df_columns : list (string * list entry);
  df_queries : list string;
  df_history : list string
}.

Definition FM (A : Type) : Type := vDataFrame -> vDataFrame * (exn + A).

Definition fret {A : Type} (a : A) : FM A := fun f => (f, inr a).

Definition fbind {A B : Type} (m : FM A) (k : A -> FM B) : FM B :=
  fun f =>
    match m f with
    | (f', inr a) => k a f'
    | (f', inl e) => (f', inl e)
    end.

Notation "x <~ c ;; k" := (fbind c (fun x => k))
  (at level 100, c at next level, right associativity) : py_scope.

(** The chain of the column [name]. *)
Fixpoint column_chain (name : string) (columns : list (string * list entry))
  : option (list entry) :=
  match columns with
  | [] => None
  | (alias, t) :: rest => if alias =? name then Some t else column_chain name rest
  end.

(** The columns after the column [name] has got the chain [t]. *)
Fixpoint set_chain (name : string) (t : list entry)
         (columns : list (string * list entry)) : list (string * list entry) :=
  match columns with
  | [] => []
  | (alias, t0) :: rest =>
      if alias =? name then (alias, t) :: rest
      else (alias, t0) :: set_chain name t rest
  end.

(** What the methods of the dataframe take from outside:
    - [helpers]: the collaborators of the columns (their [_genSQL] is
      not used: the view of the table is [view]);
    - [view columns]: [vDataFrame._genSQL()], which depends on the
      chains of all the columns;
    - [_format_colnames], [get_columns]: the methods of these names;
      [get_columns] is given [None] when it is called without argument;
    - [getitem_error name]: the exception [self[name]] raises when
      there is no such column;
    - [execute_truth log q]: the truth value of the first element the
      engine returns for the query [q]. *)
Class Table : Type := {
  helpers : Env;
  view : list (string * list entry) -> string;
  _format_colnames : list (string * list entry) -> string -> exn + string;
  get_columns : list (string * list entry) -> option (list string) -> list string;
  getitem_error : string -> exn;
  execute_truth : list string -> string -> exn + bool
}.

Section DataFrameTyping.

Context {T : Table}.

(** The collaborators of the column [name] of a dataframe whose columns
    are [columns]: the view of the table follows the column's chain. *)
Definition column_env (columns : list (string * list entry)) (name : string) : Env := {|
  to_sql_dtype := @to_sql_dtype helpers;
  to_category := @to_category helpers;
  guess_sep := @guess_sep helpers;
  clean_query := @clean_query helpers;
  format := @format helpers;
  _genSQL := fun t => view (set_chain name t columns);
  execute := @execute helpers;
  version_sql := @version_sql helpers;
  engine_version := @engine_version helpers;
  version_error := @version_error helpers;
  flex_isvmap := @flex_isvmap helpers
|}.

(** [self[name].method(...)] *)
Definition on_column {A : Type} (name : string) (method : Env -> M A) : FM A :=
  fun f =>
    match column_chain name (df_columns f) with
    | None => (f, inl (getitem_error name))
    | Some t =>
        let '(w, r) :=
          method (column_env (df_columns f) name)
                 (World t (df_queries f) (df_history f)) in
        (DataFrame (set_chain name (_transf w) (df_columns f)) (queries w) (history w), r)
    end.

(** [vDFTyping.astype]: the items of the dictionary, in order. *)
Fixpoint df_astype (dtype : list (string * string)) : FM unit :=
  match dtype with
  | [] => fret tt
  | (column, ty) :: rest =>
      name <~ (fun f => (f, _format_colnames (df_columns f) column)) ;;
      _ <~ on_column name (fun E => @astype E name ty) ;;
      df_astype rest
  end.

(** The loop of [bool_to_int] (source lines 72-74). *)
Fixpoint bool_to_int_loop (columns : list string) : FM unit :=
  match columns with
  | [] => fret tt
  | column :: rest =>
      b <~ on_column column (fun _ => isbool) ;;
      _ <~ (if b : bool
            then on_column column (fun E => @astype E column "int")
            else fret tt) ;;
      bool_to_int_loop rest
  end.

Definition bool_to_int : FM unit :=
  fun f => bool_to_int_loop (get_columns (df_columns f) None) f.

(** The loop shared by [datecol] and [numcol]:
    [if self[column].test(): columns += [column]]. *)
Fixpoint collect (test : M bool) (cols columns : list string) : FM (list string) :=
  match cols with
  | [] => fret columns
  | column :: rest =>
      b <~ on_column column (fun _ => test) ;;
      collect test rest (if b : bool then columns ++ [column] else columns)%list
  end.

Definition datecol : FM (list string) :=
  fun f => collect isdate (get_columns (df_columns f) None) [] f.

Definition numcol (exclude_columns : list string) : FM (list string) :=
  fun f => collect isnum (get_columns (df_columns f) (Some exclude_columns)) [] f.

(** [str(n)] for an integer. *)
Definition str_int (n : Z) : string := NilZero.string_of_int (Z.to_int n).

(** The query of [catcol] (source lines 96-100). *)
Definition catcol_query (column : string) (max_cardinality : Z) (table : string) : string :=
  br 24 ++ "SELECT " ++
  br 28 ++ "/*+LABEL('vDataframe.catcol')*/ " ++
  br 28 ++ "(APPROXIMATE_COUNT_DISTINCT(" ++ column ++ ") < " ++
           str_int max_cardinality ++ ") " ++
  br 24 ++ "FROM " ++ table.

(** [_executeSQL(..., method="fetchfirstelem")], used as a truth value. *)
Definition df_executeSQL (query : string) : FM bool :=
  fun f =>
    (DataFrame (df_columns f) (df_queries f ++ [query]) (df_history f),
     execute_truth (df_queries f) query).

(** The test of source lines 94-109: whether [column] is categorical. *)
Definition is_cat (column : string) (max_cardinality : Z) : FM bool :=
  c <~ on_column column (fun _ => category) ;;
  asks <~ (if c =? "int"
           then (b <~ on_column column (fun _ => isbool) ;; fret (negb b))
           else fret false) ;;
  if asks : bool then
    fun f => df_executeSQL (catcol_query column max_cardinality (view (df_columns f))) f
  else
    c' <~ on_column column (fun _ => category) ;;
    fret (negb (c' =? "float")).

Fixpoint catcol_loop (max_cardinality : Z) (cols columns : list string)
  : FM (list string) :=
  match cols with
  | [] => fret columns
  | column :: rest =>
      b <~ is_cat column max_cardinality ;;
      catcol_loop max_cardinality rest
                  (if b : bool then columns ++ [column] else columns)%list
  end.

Definition catcol (max_cardinality : Z) : FM (list string) :=
  fun f => catcol_loop max_cardinality (get_columns (df_columns f) None) [] f.

(** What an accessor returns, as a function of the chain:
    [f] applied to the last entry, or the index error. *)
Definition of_last {A : Type} (f : entry -> A) (t : list entry) : exn + A :=
  match last_entry t with
  | inl e => inl e
  | inr e => inr (f e)
  end.

(** The sum of the lengths of the chains. *)
Definition entries (columns : list (string * list entry)) : nat :=
  list_sum (map (fun c => List.length (snd c)) columns).

(** The last entry of the chain [t] declares a boolean type. *)
Definition declares_bool (t : list entry) : bool :=
  match last_entry t with
  | inr e => slice 0 4 (lower (declared e)) =? "bool"
  | inl _ => false
  end.

(** The last entry of the chain of [column] has the category [c]. *)
Definition has_category (columns : list (string * list entry)) (c column : string) : bool :=
  match column_chain column columns with
  | Some t =>
      match last_entry t with
      | inr e => categ e =? c
      | inl _ => false
      end
  | None => false
  end.

(** The column has the category [int] and does not declare a boolean
    type: the columns for which [catcol] asks the engine. *)
Definition int_not_bool (columns : list (string * list entry)) (column : string) : bool :=
  has_category columns "int" column
  && negb (match column_chain column columns with
           | Some t => declares_bool t
           | None => false
           end).

End DataFrameTyping.

(** Collaborators and a dataframe for the examples: names are found
    in lower case, all the columns are listed in order, and the engine
    answers every cardinality question with yes.  The dataframe has the
    boolean column [survived], the text column [name], the numerical
    columns [pclass] and [fare] and the date column [boat]. *)
Definition example_table (v : version) (biggest rejection : option string) : Table := {|
  helpers := Scenario.env v biggest rejection;
  view := fun _ => "public.titanic";
  _format_colnames := fun _ column => inr (lower column);
  get_columns := fun columns exclude =>
    filter (fun c => negb (existsb (String.eqb c)
                             (match exclude with Some l => l | None => [] end)))
           (map fst columns);
  getitem_error := fun name => Exn IndexError ("no column " ++ name);
  execute_truth := fun _ _ => inr true
|}.

(** The collaborators of the examples: an engine of version 12.0.0 whose
    longest sample is [a|b] and which accepts every validation. *)
Definition sample_table : Table := example_table (12, 0, 0) (Some "a|b") None.

Definition titanic : vDataFrame :=
  DataFrame
    [ ("survived", [Entry "{}" "boolean" "int"]);
      ("name", [Entry "{}" "varchar(164)" "text"]);
      ("pclass", [Entry "{}" "int" "int"]);
      ("fare", [Entry "{}" "numeric(10,5)" "float"]);
      ("boat", [Entry "{}" "date" "date"]) ]
    [] [].

(** * Properties *)

(** ** Running a method: symbolic evaluation *)

(** Case analysis on the innermost value a [match] or [if] waits for. *)
Ltac split_scrutinee x :=
  lazymatch x with
  | context [match ?y with _ => _ end] => split_scrutinee y
  | _ => first [ match goal with H : x = _ |- _ => rewrite H end
               | destruct x eqn:? ]
  end.

Ltac run_step :=
  match goal with
  | |- context [match ?x with _ => _ end] => split_scrutinee x
  end.

Ltac unfold_monad :=
  cbv beta iota delta
    [bind ret raise lift try_except self_transf append_transf _add_to_history
     _executeSQL vertica_version category ctype and_category strip_result
     conversion_error] in *.

Ltac reduce :=
  cbn [fst snd _transf queries history log_query orb andb template declared categ] in *.

Ltac run := unfold_monad; reduce; repeat (run_step; reduce).

(** Rewriting with the equations the case analysis has recorded. *)
Ltac use_cases :=
  repeat match goal with
         | H : ?x = _ |- context [?x] => rewrite H; reduce
         end.

Lemma last_entry_snoc (t : list entry) (e : entry) :
  last_entry (t ++ [e]) = inr e.
Proof.
  induction t as [|a t IH]; [reflexivity|].
  cbn [app last_entry]. rewrite IH.
  destruct (t ++ [e])%list eqn:H; [|reflexivity].
  destruct t; discriminate H.
Qed.

Lemma length_snoc {A : Type} (t : list A) (a : A) :
  List.length (t ++ [a]) = S (List.length t).
Proof. rewrite length_app. simpl. lia. Qed.

(** Closing the cases whose recorded equations contradict each other by
    computation. *)
Ltac prune :=
  try match goal with
      | H : _ = _ |- _ => solve [vm_compute in H; discriminate H]
      end.

(** The same when a test [a =? b] has succeeded on a literal. *)
Ltac prune_eq :=
  try match goal with
      | H : (?a =? ?b) = true |- _ =>
          solve [apply String.eqb_eq in H; subst; prune]
      end.

Lemma current_category_last (w : world) (c : string) :
  current_category w = c -> c <> "" ->
  exists t d, last_entry (_transf w) = inr (Entry t d c).
Proof.
  unfold current_category. intros H N.
  destruct (last_entry (_transf w)) as [x | [t d k]].
  - congruence.
  - exists t, d. cbn [categ] in H. now subst.
Qed.

(** Bringing the category found by a call into the form the case
    analysis uses. *)
Ltac know_category H :=
  let t := fresh "t" in
  let d := fresh "d" in
  apply current_category_last in H; [| discriminate];
  destruct H as [t [d H]].

Lemma char_family_not_json (dtype : string) :
  (slice 0 7 dtype =? "varchar") || (slice 0 4 dtype =? "char") = true ->
  (dtype =? "json") = false.
Proof.
  intros H. destruct (dtype =? "json") eqn:J; [|reflexivity].
  apply String.eqb_eq in J. subst dtype. discriminate H.
Qed.





(** ** Separator inference *)

Section SeparatorInference.

Variable file_str : string.

Let occurrences (s : string) : nat := count file_str s.

(** The scan keeps a candidate whose count no other candidate seen so
    far exceeds, and every candidate in front of it has a strictly
    smaller count. *)
Lemma guess_sep_from_first_max (candidates : list string) (best : string) :
  exists before after,
    (best :: candidates = before ++ Parsers.guess_sep_from candidates best file_str :: after)%list /\
    (forall c, In c before ->
               (occurrences c < occurrences (Parsers.guess_sep_from candidates best file_str))%nat) /\
    (forall c, In c (best :: candidates) ->
               (occurrences c <= occurrences (Parsers.guess_sep_from candidates best file_str))%nat).
Proof.
  revert best. induction candidates as [|s rest IH]; intros best.
  - exists [], []. cbn [Parsers.guess_sep_from app]. split; [reflexivity | split].
    + intros c [].
    + intros c [<- | []]. lia.
  - cbn [Parsers.guess_sep_from]. fold (occurrences best) (occurrences s).
    destruct (occurrences best <? occurrences s)%nat eqn:Lt.
    + apply Nat.ltb_lt in Lt.
      destruct (IH s) as (before & after & Eq & Before & Max).
      exists (best :: before), after. repeat split.
      * cbn. now rewrite Eq.
      * intros c [<- | I]; [| now apply Before].
        specialize (Max s (or_introl eq_refl)). lia.
      * intros c [<- | I]; [| now apply Max].
        specialize (Max s (or_introl eq_refl)). lia.
    + apply Nat.ltb_ge in Lt.
      destruct (IH best) as (before & after & Eq & Before & Max).
      destruct before as [|b before].
      * cbn in Eq. injection Eq as Eq1 Eq2.
        exists [], (s :: after). rewrite <- Eq1 in *. repeat split.
        -- cbn. now rewrite Eq2.
        -- intros c [].
        -- intros c [<- | [<- | I]]; [lia | lia |].
           apply Max. now right.
      * cbn in Eq. injection Eq as Eq1 Eq2. subst b.
        exists (best :: s :: before), after. repeat split.
        -- cbn [app]. now rewrite <- Eq2.
        -- intros c [<- | [<- | I]].
           ++ apply Before. now left.
           ++ specialize (Before best (or_introl eq_refl)). lia.
           ++ apply Before. now right.
        -- intros c [<- | [<- | I]].
           ++ apply Max. now left.
           ++ specialize (Before best (or_introl eq_refl)). lia.
           ++ apply Max. now right.
Qed.

End SeparatorInference.

Section CastTheory.

Context {E : Env}.

(** The choice of the template only reads the chain. *)
Lemma choose_transformation_frame (_alias dtype : string) (w : world) :
  _transf (fst (choose_transformation _alias dtype w)) = _transf w /\
  history (fst (choose_transformation _alias dtype w)) = history w.
Proof.
  unfold choose_transformation. run; auto.
Qed.

Lemma choose_transformation_dtype (_alias dtype : string) (w w1 : world)
      (transformation_2 dtype' : string) :
  choose_transformation _alias dtype w = (w1, inr (transformation_2, dtype')) ->
  dtype' = recorded_dtype dtype w.
Proof.
  unfold choose_transformation.
  run; intros H; inversion H; subst; clear H;
    unfold recorded_dtype, current_category; use_cases;
    try reflexivity.
  all: rewrite (char_family_not_json dtype') by assumption; reflexivity.
Qed.




(** What a successful cast has done: the template was chosen, it was
    formatted with the alias, the engine accepted the validation probe,
    which was the last query sent, and then the entry and the history
    line were appended. *)
Lemma astype_success (_alias dtype : string) (w w' : world) :
  astype _alias dtype w = (w', inr tt) ->
  exists w1 transformation_2 dtype' expression rows,
    choose_transformation _alias (to_sql_dtype dtype) w =
      (w1, inr (transformation_2, dtype')) /\
    format (clean_query transformation_2) _alias = inr expression /\
    execute (queries w1) (testing_query expression _alias (_genSQL (_transf w))) =
      inr rows /\
    w' = World
           (_transf w ++
            [Entry (clean_query transformation_2) dtype' (to_category dtype')])
           (queries w1 ++ [testing_query expression _alias (_genSQL (_transf w))])
           (history w ++
            ["[AsType]: The vDataColumn " ++ _alias ++ " was converted to " ++
             dtype' ++ "."]).
Proof.
  unfold astype.
  pose proof (choose_transformation_frame _alias (to_sql_dtype dtype) w) as [F1 F2].
  unfold bind at 1. unfold try_except at 1.
  destruct (choose_transformation _alias (to_sql_dtype dtype) w)
    as [w1 [e | [transformation_2 dtype']]]; cbn [fst] in F1, F2.
  - unfold conversion_error, raise. discriminate.
  - unfold validate_and_append. rewrite <- F1, <- F2.
    run; intros H; inversion H; subst; clear H.
    repeat eexists; eassumption.
Qed.

(** The accessors after an append read the new entry. *)
Lemma ctype_snoc (t : list entry) (e : entry) (q h : list string) :
  ctype (World (t ++ [e]) q h) = (World (t ++ [e]) q h, inr (lower (declared e))).
Proof.
  unfold ctype, bind, self_transf, lift, ret. cbn [_transf].
  rewrite last_entry_snoc. reflexivity.
Qed.

Lemma category_snoc (t : list entry) (e : entry) (q h : list string) :
  category (World (t ++ [e]) q h) = (World (t ++ [e]) q h, inr (categ e)).
Proof.
  unfold category, bind, self_transf, lift, ret. cbn [_transf].
  rewrite last_entry_snoc. reflexivity.
Qed.

Lemma current_category_eqb (w : world) (e : entry) (c : string) :
  last_entry (_transf w) = inr e ->
  (categ e =? c) = true -> current_category w = c.
Proof.
  intros L K. unfold current_category. rewrite L. now apply String.eqb_eq.
Qed.

Lemma current_category_neqb (w : world) (e : entry) (c : string) :
  last_entry (_transf w) = inr e ->
  (categ e =? c) = false -> current_category w <> c.
Proof.
  intros L K. unfold current_category. rewrite L. now apply String.eqb_neq.
Qed.

(** The [json] branch (source lines 252-260). *)
Lemma choose_transformation_json (_alias : string) (w w1 : world)
      (transformation_2 dtype' : string) :
  choose_transformation _alias "json" w = (w1, inr (transformation_2, dtype')) ->
  dtype' = "varchar" /\
  ((current_category w = "vmap" /\
    transformation_2 = maptostring_json /\ w1 = w)
   \/
   (current_category w <> "vmap" /\
    transformation_2 = "TO_JSON({})" /\
    (exists v, engine_version (queries w) = inr v /\
               version_geb v (10, 1, 0) = true) /\
    w1 = log_query version_sql w)).
Proof.
  unfold choose_transformation.
  run; prune; intros H; inversion H; subst; clear H; split; try reflexivity.
  - left. eauto using current_category_eqb.
  - right. repeat split; eauto using current_category_neqb.
Qed.

(** C3.  A successful cast whose normalised request is exactly [json]
    appends an entry of declared type [varchar], whatever the label
    asked for.  If the column's category is [vmap], the template is the
    canonical-JSON [MAPTOSTRING] conversion and the only query sent is
    the validation probe (no version is asked for); otherwise the
    engine has reported a version of at least 10.1.0 and the template
    is [TO_JSON]. *)
Theorem astype_json (_alias dtype : string) (w w' : world) :
  to_sql_dtype dtype = "json" ->
  astype _alias dtype w = (w', inr tt) ->
  exists e expression,
    _transf w' = (_transf w ++ [e])%list /\
    declared e = "varchar" /\
    ctype w' = (w', inr "varchar") /\
    format (template e) _alias = inr expression /\
    ((current_category w = "vmap" /\
      template e = clean_query maptostring_json /\
      queries w' =
      (queries w ++ [testing_query expression _alias (_genSQL (_transf w))])%list)
     \/
     (current_category w <> "vmap" /\
      template e = clean_query "TO_JSON({})" /\
      (exists v, engine_version (queries w) = inr v /\
                 version_geb v (10, 1, 0) = true) /\
      queries w' =
      (queries w ++ [version_sql] ++
       [testing_query expression _alias (_genSQL (_transf w))])%list)).
Proof.
  intros D H.
  apply astype_success in H.
  destruct H as (w1 & t2 & d' & expression & rows & HC & HF & _ & ->).
  rewrite D in HC. apply choose_transformation_json in HC.
  destruct HC as [-> HC].
  exists (Entry (clean_query t2) "varchar" (to_category "varchar")), expression.
  cbn [_transf queries declared template].
  repeat split; try assumption.
  - apply ctype_snoc.
  - destruct HC as [(K & -> & ->) | (K & -> & V & ->)].
    + left. auto.
    + right. cbn [queries log_query]. rewrite <- app_assoc. auto.
Qed.


(** The [vmap] branch (source lines 200-225): one probe, no version
    gate, and the extractor is chosen from the stripped sample. *)
Lemma choose_transformation_vmap (_alias dtype : string) (w w1 : world)
      (transformation_2 dtype' : string) :
  startswith dtype "vmap" = true ->
  current_category w = "text" ->
  choose_transformation _alias dtype w = (w1, inr (transformation_2, dtype')) ->
  exists sample,
    execute (queries w) (biggest_str_query _alias (_genSQL (_transf w))) =
      inr (Some sample) /\
    w1 = log_query (biggest_str_query _alias (_genSQL (_transf w))) w /\
    dtype' = "vmap" /\
    transformation_2 =
      (if enclosed "{" "}" (strip sample)
       then mapjsonextractor
       else mapdelimitedextractor (guess_sep (strip sample)) dtype).
Proof.
  intros F C. know_category C.
  assert (B : (dtype =? "array") || startswith dtype "vmap" = true)
    by (rewrite F; apply orb_true_r).
  unfold choose_transformation.
  run; prune; prune_eq; intros H; inversion H; subst; clear H;
    eexists; repeat split; try eassumption; use_cases; reflexivity.
Qed.

(** The [array] branch (source lines 198-210 and 226-245): the version
    gate, then one probe, and the extractor is built from the stripped
    sample. *)
Lemma choose_transformation_array (_alias : string) (w w1 : world)
      (transformation_2 dtype' : string) :
  current_category w = "text" ->
  choose_transformation _alias "array" w = (w1, inr (transformation_2, dtype')) ->
  exists v sample,
    engine_version (queries w) = inr v /\
    version_geb v (10, 0, 0) = true /\
    execute (queries w ++ [version_sql])
            (biggest_str_query _alias (_genSQL (_transf w))) = inr (Some sample) /\
    w1 = log_query (biggest_str_query _alias (_genSQL (_transf w)))
                   (log_query version_sql w) /\
    dtype' = "array" /\
    transformation_2 = string_to_array (guess_sep (strip sample)) (strip sample).
Proof.
  intros C. know_category C.
  unfold choose_transformation.
  run; prune; intros H; inversion H; subst; clear H.
  do 2 eexists; repeat split; eassumption.
Qed.




End CastTheory.

(** C5.  Separator inference is a function of the sample alone.  Among
    the candidates, taken in their fixed order of priority, it returns
    the first one whose number of occurrences in the sample is maximal,
    and that number is not zero as soon as some candidate occurs; for the
    sample [1,2;3,4] it returns [,].  In the cast, the separator inferred
    from the stripped sample is the delimiter of both the array
    extractor and the delimited-map extractor. *)
Theorem guess_sep_first_maximal (E : Env) (candidates : list string) (file_str : string) :
  (exists c, In c candidates /\ (0 < count file_str c)%nat) ->
  (exists before after,
      (candidates = before ++ Parsers.guess_sep_in candidates file_str :: after)%list /\
      (0 < count file_str (Parsers.guess_sep_in candidates file_str))%nat /\
      (forall c, In c candidates ->
                 (count file_str c <= count file_str (Parsers.guess_sep_in candidates file_str))%nat) /\
      (forall c, In c before ->
                 (count file_str c < count file_str (Parsers.guess_sep_in candidates file_str))%nat)) /\
  Parsers.guess_sep "1,2;3,4" = "," /\
  (forall _alias w w1 transformation_2 dtype',
      current_category w = "text" ->
      choose_transformation _alias "array" w = (w1, inr (transformation_2, dtype')) ->
      exists sample,
        execute (queries w ++ [version_sql])
                (biggest_str_query _alias (_genSQL (_transf w))) = inr (Some sample) /\
        transformation_2 = string_to_array (guess_sep (strip sample)) (strip sample)) /\
  (forall _alias dtype w w1 transformation_2 dtype',
      startswith dtype "vmap" = true ->
      current_category w = "text" ->
      choose_transformation _alias dtype w = (w1, inr (transformation_2, dtype')) ->
      exists sample,
        execute (queries w) (biggest_str_query _alias (_genSQL (_transf w))) =
          inr (Some sample) /\
        (enclosed "{" "}" (strip sample) = false ->
         transformation_2 = mapdelimitedextractor (guess_sep (strip sample)) dtype)) /\
  (forall sep b dtype,
      string_to_array sep b =
        br 24 ++ "STRING_TO_ARRAY({} " ++ br 40 ++ "USING PARAMETERS " ++
        br 40 ++ "collection_delimiter='" ++ sep ++ "'" ++
        br 40 ++ collection_open b ++ br 40 ++ collection_close b ++
        br 40 ++ collection_null_element sep b ++ ")" /\
      mapdelimitedextractor sep dtype =
        "MAPDELIMITEDEXTRACTOR({} " ++ br 60 ++ "USING PARAMETERS " ++
        br 60 ++ "delimiter='" ++ sep ++ "'" ++ br 60 ++ header_names dtype ++ ")").
Proof.
  intros (c0 & In0 & Pos0). repeat split.
  - destruct candidates as [|best rest]; [destruct In0 |].
    destruct (guess_sep_from_first_max file_str rest best)
      as (before & after & Eq & Before & Max).
    exists before, after. cbn [Parsers.guess_sep_in]. repeat split.
    + exact Eq.
    + specialize (Max c0 In0). lia.
    + exact Max.
    + exact Before.
  - intros _alias w w1 t2 d' C H.
    apply choose_transformation_array in H; [| assumption].
    destruct H as (v & sample & _ & _ & X & _ & _ & ->).
    exists sample. split; [exact X | reflexivity].
  - intros _alias dtype w w1 t2 d' F C H.
    apply choose_transformation_vmap in H; [| assumption | assumption].
    destruct H as (sample & X & _ & _ & ->).
    exists sample. split; [exact X |]. intros ->. reflexivity.
Qed.

(** ** Round trips to the engine *)

Section RoundTrips.

Context {E : Env}.




End RoundTrips.

(** ** The read-only accessors *)

Lemma last_entry_nonempty (t : list entry) :
  t <> [] -> exists e, last_entry t = inr e.
Proof.
  induction t as [|a t IH]; intros N; [congruence |].
  destruct t as [|b t].
  - exists a. reflexivity.
  - destruct IH as [e L]; [discriminate |]. exists e. exact L.
Qed.

Section Accessors.

Context {E : Env}.

(** C8 (amended).  On a chain that is not empty, [isnum], [isbool],
    [isdate] and [isarray] are pure reads of the last entry: they
    return a value, send no query and leave the world as it is.
    [isvmap] is such a read when the category is already [vmap];
    otherwise its answer, and whatever else happens, is that of the
    flex check run on the table's current view. *)
Theorem predicates_pure_reads (_alias : string) (w : world) :
  _transf w <> [] ->
  exists e,
    last_entry (_transf w) = inr e /\
    category w = (w, inr (categ e)) /\
    ctype w = (w, inr (lower (declared e))) /\
    isnum w = (w, inr ((categ e =? "float") || (categ e =? "int"))) /\
    isbool w = (w, inr (slice 0 4 (lower (declared e)) =? "bool")) /\
    isdate w = (w, inr (categ e =? "date")) /\
    isarray w = (w, inr (lower (slice 0 5 (lower (declared e))) =? "array")) /\
    (categ e = "vmap" -> isvmap _alias w = (w, inr true)) /\
    (categ e <> "vmap" ->
     isvmap _alias w = flex_isvmap _alias (_genSQL (_transf w)) w).
Proof.
  intros N. destruct (last_entry_nonempty _ N) as [e L].
  exists e.
  unfold isnum, isbool, isdate, isarray, isvmap.
  unfold_monad. rewrite L.
  repeat split.
  - intros K. rewrite K. reflexivity.
  - intros K. apply String.eqb_neq in K. rewrite K. reflexivity.
Qed.

(** A validation probe that the engine rejects: the cast fails with a
    [ConversionError] made of the engine's text, the alias and the
    value [dtype] holds at that point; the chain is not touched. *)
Lemma astype_validation_rejected (_alias dtype : string) (w w1 : world)
      (transformation_2 dtype' expression : string) (e : exn) :
  choose_transformation _alias (to_sql_dtype dtype) w =
    (w1, inr (transformation_2, dtype')) ->
  format (clean_query transformation_2) _alias = inr expression ->
  execute (queries w1) (testing_query expression _alias (_genSQL (_transf w1))) = inl e ->
  astype _alias dtype w =
  (log_query (testing_query expression _alias (_genSQL (_transf w1))) w1,
   inl (Exn ConversionError
          (message e ++ nl ++ "The vDataColumn " ++ _alias ++
           " can not be converted to " ++ dtype'))).
Proof.
  intros HC HF HX.
  unfold astype. unfold bind at 1. unfold try_except at 1. rewrite HC.
  unfold validate_and_append. run. reflexivity.
Qed.

End Accessors.

(** * The scenarios of the specification *)

Import Scenario.




(** C3, witness: a [vmap] column cast to [json] on an engine of version
    9.3.0, which the version gate of the other branch would refuse. *)
Lemma astype_json_witness :
  @to_sql_dtype (legacy None None) " JSON " = "json" /\
  snd (@astype (legacy None None) "age" " JSON " vmap_column) = inr tt /\
  exists e,
    _transf (fst (@astype (legacy None None) "age" " JSON " vmap_column)) =
      (_transf vmap_column ++ [e])%list /\
    declared e = "varchar" /\
    template e = "MAPTOSTRING({} USING PARAMETERS canonical_json=true)".
Proof.
  split; [reflexivity | split; [reflexivity |]].
  destruct (@astype_json (legacy None None) "age" " JSON " vmap_column
              (fst (@astype (legacy None None) "age" " JSON " vmap_column))
              eq_refl eq_refl)
    as (e & expression & A & B & _ & _ & [(_ & T & _) | (N & _)]).
  - exists e. auto.
  - exfalso. apply N. reflexivity.
Defined.

(** C4, the failing input.  The text column [price] is cast to [json]
    on an engine of version 12.0.0 that rejects the validation probe.
    The probe is the only query after the engine-version query, the chain
    is untouched, and the [ConversionError] carries the engine's text and
    the alias; but the type it names is [varchar], the value line 260 has
    given to [dtype], and not the requested [json]. *)
Theorem astype_json_rejection_names_varchar :
  @astype (modern None (Some "ERROR 2827: Could not convert")) "price" "json" text_column =
  (World [Entry "{}" "varchar" "text"]
         ["SELECT version();";
          testing_query "TO_JSON(price)" "price" "public.t"]
         [],
   inl (Exn ConversionError
          ("ERROR 2827: Could not convert" ++ nl ++
           "The vDataColumn price can not be converted to varchar"))).
Proof. reflexivity. Qed.

(** The sibling path: when the same request fails at the version gate,
    before line 260, the message names the requested type. *)
Lemma astype_json_gate_names_json :
  snd (@astype (legacy None None) "price" "json" text_column) =
  inl (Exn ConversionError
         ("This Function is not available for this engine version." ++ nl ++
          "The vDataColumn price can not be converted to json")).
Proof. reflexivity. Qed.

(** C5, witness: the sample [1,2;3,4] and the candidates [,], [|], [;]. *)
Lemma guess_sep_first_maximal_witness :
  (exists c, In c Parsers.delimiter_candidates /\ (0 < count "1,2;3,4" c)%nat) /\
  Parsers.guess_sep "1,2;3,4" = "," /\
  (forall c, In c Parsers.delimiter_candidates ->
             (count "1,2;3,4" c <= count "1,2;3,4" (Parsers.guess_sep "1,2;3,4"))%nat).
Proof.
  assert (H : exists c, In c Parsers.delimiter_candidates /\ (0 < count "1,2;3,4" c)%nat).
  { exists ",". split; [left; reflexivity | cbv; lia]. }
  split; [exact H |].
  destruct (guess_sep_first_maximal (modern None None)
              Parsers.delimiter_candidates "1,2;3,4" H)
    as ((before & after & _ & _ & Max & _) & G & _).
  split; [exact G | exact Max].
Defined.


(** With the sample [{1,2,3}] the cast itself does not get further: the
    extraction expression now holds a brace of its own, which
    [str.format] does not accept, so that no validation probe is sent
    and the chain stays as it was. *)
Lemma astype_array_brace_sample :
  exists e,
    snd (@astype (modern (Some "{1,2,3}") None) "age" "array" text_column) = inl e /\
    kind e = ConversionError /\
    fst (@astype (modern (Some "{1,2,3}") None) "age" "array" text_column) =
      World [Entry "{}" "varchar" "text"]
            ["SELECT version();"; biggest_str_query "age" "public.t"]
            [].
Proof. eexists. repeat split. Qed.


(** C8, witness: the accessors on the text column. *)
Lemma predicates_pure_reads_witness :
  _transf text_column <> [] /\
  isnum text_column = (text_column, inr false) /\
  isdate text_column = (text_column, inr false).
Proof.
  assert (N : _transf text_column <> []) by discriminate.
  split; [exact N |].
  destruct (@predicates_pure_reads (modern None None) "age" text_column N)
    as (e & L & _ & _ & Hnum & _ & Hdate & _).
  injection L as <-.
  split; [exact Hnum | exact Hdate].
Defined.

(** C8, counterexample.  With a flex check that asks the engine,
    [isvmap] on a text column sends a query. *)
Lemma isvmap_sends_a_query :
  queries text_column = [] /\
  queries (fst (@isvmap asking_env "age" text_column)) =
    ["SELECT MAPVERSION(age) FROM public.t LIMIT 1"].
Proof. split; reflexivity. Qed.



(** * Reading a connection file *)

Section ReadFacts.

Import Connect.

Context {H : Host}.

Lemma in_tuple_In (x : string) (t : list string) :
  in_tuple x t = true <-> In x t.
Proof.
  unfold in_tuple. rewrite existsb_exists. split.
  - intros (y & I & Eq). apply String.eqb_eq in Eq. now subst.
  - intros I. exists x. split; [exact I | apply String.eqb_refl].
Qed.

Lemma in_tuple_not_In (x : string) (t : list string) :
  in_tuple x t = false <-> ~ In x t.
Proof.
  rewrite <- in_tuple_In. destruct (in_tuple x t); split; congruence.
Qed.















(** X5.  Only the first option whose name starts with [env] is looked
    at: it alone sets the flag, and later [env] options are ignored. *)
Theorem env_flag_first (before after : list (string * string)) (n v : string) :
  (forall o, In o before -> startswith (lower (fst o)) "env" = false) ->
  startswith (lower n) "env" = true ->
  env_flag (before ++ (n, v) :: after) = truthy v.
Proof.
  intros B F. induction before as [|[n0 v0] before IH]; cbn [app env_flag].
  - now rewrite F.
  - pose proof (B (n0, v0) (or_introl eq_refl)) as B0. cbn [fst] in B0.
    rewrite B0. apply IH. intros o I. apply B. now right.
Qed.





Lemma set_option_missing (option_name option_val : string) (d : dict) :
  in_tuple (lower option_name) ["pwd"; "password"; "uid"; "user"] = true ->
  getenv option_val = None ->
  exists msg, set_option true option_name option_val d = inl (ParameterError msg).
Proof.
  intros C G. unfold set_option. cbv zeta. rewrite C, G. cbn [andb].
  eexists. reflexivity.
Qed.

(** X7.  When the [env] flag is on, a credential option ([pwd],
    [password], [uid] or [user]) that names an environment variable
    which is not set makes [read_dsn] fail: no dictionary is returned,
    whatever the other options are. *)
Theorem read_dsn_missing_variable (section dsn option_name option_val : string) :
  env_flag (items (get_confparser dsn) section) = true ->
  In (option_name, option_val) (items (get_confparser dsn) section) ->
  in_tuple (lower option_name) ["pwd"; "password"; "uid"; "user"] = true ->
  getenv option_val = None ->
  exists e, read_dsn section dsn = inl e.
Proof.
  intros F I C G. unfold read_dsn.
  destruct (has_section (get_confparser dsn) section); [| eexists; reflexivity].
  rewrite F. clear F. generalize default_conn_info.
  induction (items (get_confparser dsn) section) as [|[n v] rest IH]; intros d.
  - destruct I.
  - cbn [set_options]. destruct I as [Eq | I].
    + injection Eq as -> ->.
      destruct (set_option_missing option_name option_val d C G) as [msg ->].
      eexists. reflexivity.
    + destruct (set_option true n v d) as [e | d']; [eexists; reflexivity |].
      now apply IH.
Qed.

Lemma remove_section_sections (p : confparser) (section : string) :
  NoDup (sections p) ->
  forall s, In s (sections (remove_section p section)) <->
            In s (sections p) /\ s <> section.
Proof.
  unfold sections. induction p as [|[name options] p IH]; intros N s; cbn.
  - tauto.
  - inversion N as [|? ? Notin N']; subst.
    destruct (name =? section) eqn:Eq; cbn.
    + apply String.eqb_eq in Eq. subst name. split.
      * intros I. split; [now right |]. intros ->. contradiction.
      * intros [[<- | I] Ne]; [congruence | exact I].
    + apply String.eqb_neq in Eq. rewrite (IH N' s). split.
      * intros [<- | [I Ne]]; [split; [now left | exact Eq] | split; [now right | exact Ne]].
      * intros [[<- | I] Ne]; [now left | right; split; assumption].
Qed.

(** X8.  The section of the automatic connection is never listed: the
    available connections are exactly the other sections of the file. *)
Theorem available_connections_hides_auto :
  NoDup (sections (get_confparser "")) ->
  forall s, In s available_connections <->
            In s (sections (get_confparser "")) /\ s <> VERTICAPY_AUTO_CONNECTION.
Proof.
  intros N s. unfold available_connections.
  destruct (has_section (get_confparser "") VERTICAPY_AUTO_CONNECTION) eqn:S.
  - now apply remove_section_sections.
  - split; [| tauto]. intros I. split; [exact I |]. intros ->.
    unfold has_section in S. unfold sections in I. apply in_map_iff in I.
    destruct I as (x & Ex & Ix).
    assert (T : existsb (fun s => fst s =? VERTICAPY_AUTO_CONNECTION)
                        (get_confparser "") = true).
    { apply existsb_exists. exists x. split; [exact Ix |]. now apply String.eqb_eq. }
    congruence.
Qed.

End ReadFacts.

(** * More on the cast *)

Section CastEdges.

Context {E : Env}.

(** A cast that fails has changed neither the chain nor the history. *)
Lemma astype_failure_frame (_alias dtype : string) (w w' : world) (e : exn) :
  astype _alias dtype w = (w', inl e) ->
  _transf w' = _transf w /\ history w' = history w.
Proof.
  unfold astype.
  pose proof (choose_transformation_frame _alias (to_sql_dtype dtype) w) as [F1 F2].
  unfold bind at 1. unfold try_except at 1.
  destruct (choose_transformation _alias (to_sql_dtype dtype) w)
    as [w1 [x | [transformation_2 dtype']]]; cbn [fst] in F1, F2.
  - unfold conversion_error, raise. intros Eq. inversion Eq. now subst.
  - unfold validate_and_append.
    run; intros Eq; inversion Eq; subst; cbn [_transf history]; auto.
Qed.

(** X9.  The history of the parent follows the chain: a cast that
    succeeds adds exactly one line, which names the alias and the type
    that was recorded; a cast that fails adds none. *)
Theorem astype_history (_alias dtype : string) (w : world) :
  match astype _alias dtype w with
  | (w', inl _) => history w' = history w
  | (w', inr _) =>
      history w' =
      (history w ++
       [("[AsType]: The vDataColumn " ++ _alias ++ " was converted to " ++
         recorded_dtype (to_sql_dtype dtype) w ++ ".")%string])%list
  end.
Proof.
  destruct (astype _alias dtype w) as [w' [e | []]] eqn:A.
  - now apply astype_failure_frame in A.
  - apply astype_success in A.
    destruct A as (w1 & t2 & d' & expression & rows & HC & _ & _ & ->).
    apply choose_transformation_dtype in HC. subst d'. reflexivity.
Qed.





End CastEdges.

(** * The dataframe methods *)

Lemma set_chain_same (name : string) (t : list entry) (columns : list (string * list entry)) :
  column_chain name columns = Some t -> set_chain name t columns = columns.
Proof.
  induction columns as [|[alias t0] rest IH]; cbn; [reflexivity |].
  destruct (alias =? name).
  - intros Eq. now inversion Eq.
  - intros Eq. now rewrite IH.
Qed.

Lemma column_chain_set_same (name : string) (t t0 : list entry)
      (columns : list (string * list entry)) :
  column_chain name columns = Some t0 ->
  column_chain name (set_chain name t columns) = Some t.
Proof.
  induction columns as [|[alias t1] rest IH]; cbn; [discriminate |].
  destruct (alias =? name) eqn:Eq; cbn; rewrite Eq; auto.
Qed.

Lemma column_chain_set_other (name c : string) (t : list entry)
      (columns : list (string * list entry)) :
  name <> c ->
  column_chain c (set_chain name t columns) = column_chain c columns.
Proof.
  intros N. induction columns as [|[alias t1] rest IH]; cbn; [reflexivity |].
  destruct (alias =? name) eqn:Eq; cbn.
  - apply String.eqb_eq in Eq. subst alias.
    apply String.eqb_neq in N. now rewrite N.
  - destruct (alias =? c); [reflexivity | exact IH].
Qed.

Lemma set_chain_names (name : string) (t : list entry)
      (columns : list (string * list entry)) :
  map fst (set_chain name t columns) = map fst columns.
Proof.
  induction columns as [|[alias t1] rest IH]; cbn; [reflexivity |].
  destruct (alias =? name); cbn; [reflexivity | now rewrite IH].
Qed.

Lemma entries_cons (alias : string) (t : list entry)
      (columns : list (string * list entry)) :
  entries ((alias, t) :: columns) = (List.length t + entries columns)%nat.
Proof. reflexivity. Qed.

Lemma entries_set_chain (name : string) (t t0 : list entry)
      (columns : list (string * list entry)) :
  column_chain name columns = Some t0 ->
  (entries (set_chain name t columns) + List.length t0 =
   entries columns + List.length t)%nat.
Proof.
  induction columns as [|[alias t1] rest IH]; cbn [column_chain set_chain];
    [discriminate |].
  destruct (alias =? name).
  - intros Eq. inversion Eq. subst. rewrite !entries_cons. lia.
  - intros Eq. specialize (IH Eq). rewrite !entries_cons. lia.
Qed.

Lemma dataframe_eta (f : vDataFrame) :
  DataFrame (df_columns f) (df_queries f) (df_history f) = f.
Proof. now destruct f. Qed.

(** The accessors of a column do not change its world. *)
Lemma category_read (w : world) :
  category w = (w, of_last categ (_transf w)).
Proof.
  unfold category, of_last. unfold_monad. now destruct (last_entry (_transf w)).
Qed.

Lemma isbool_read (w : world) :
  isbool w = (w, of_last (fun e => slice 0 4 (lower (declared e)) =? "bool") (_transf w)).
Proof.
  unfold isbool, of_last. unfold_monad. now destruct (last_entry (_transf w)).
Qed.

Lemma isdate_read (w : world) :
  isdate w = (w, of_last (fun e => categ e =? "date") (_transf w)).
Proof.
  unfold isdate, of_last. unfold_monad. now destruct (last_entry (_transf w)).
Qed.

Lemma isnum_read (w : world) :
  isnum w = (w, of_last (fun e => (categ e =? "float") || (categ e =? "int")) (_transf w)).
Proof.
  unfold isnum, of_last. unfold_monad. now destruct (last_entry (_transf w)).
Qed.

Section DataFrameFacts.

Context {T : Table}.

(** A method that only reads the column leaves the dataframe as it is. *)
Lemma on_column_read {A : Type} (name : string) (read : list entry -> exn + A)
      (method : M A) (f : vDataFrame) :
  (forall w, method w = (w, read (_transf w))) ->
  on_column name (fun _ => method) f =
  (f, match column_chain name (df_columns f) with
      | None => inl (getitem_error name)
      | Some t => read t
      end).
Proof.
  intros R. unfold on_column.
  destruct (column_chain name (df_columns f)) as [t|] eqn:C; [| reflexivity].
  rewrite R. cbn [_transf queries history].
  rewrite (set_chain_same _ _ _ C), dataframe_eta. reflexivity.
Qed.

(** The cast of one column of a dataframe: a failure changes neither
    the columns nor the history; a success extends the chain of that
    column by one entry and the history by one line. *)
Lemma on_column_astype (name ty : string) (f : vDataFrame) :
  match on_column name (fun E => @astype E name ty) f with
  | (f', inl _) => df_columns f' = df_columns f /\ df_history f' = df_history f
  | (f', inr _) =>
      exists t e line,
        column_chain name (df_columns f) = Some t /\
        df_columns f' = set_chain name (t ++ [e]) (df_columns f) /\
        df_history f' = (df_history f ++ [line])%list
  end.
Proof.
  unfold on_column.
  destruct (column_chain name (df_columns f)) as [t|] eqn:C; [| auto].
  destruct (@astype (column_env (df_columns f) name) name ty
              (World t (df_queries f) (df_history f))) as [w [e | []]] eqn:A.
  - apply astype_failure_frame in A. cbn [_transf history] in A.
    destruct A as [-> ->]. cbn [df_columns df_history].
    now rewrite (set_chain_same _ _ _ C).
  - apply astype_success in A.
    destruct A as (w1 & t2 & d' & expression & rows & _ & _ & _ & ->).
    cbn [_transf history queries df_columns df_history].
    do 3 eexists. repeat split.
Qed.

(** The items of a dictionary are cast one after the other. *)
Lemma df_astype_app (l1 l2 : list (string * string)) (f : vDataFrame) :
  df_astype (l1 ++ l2) f =
  match df_astype l1 f with
  | (f1, inr _) => df_astype l2 f1
  | (f1, inl e) => (f1, inl e)
  end.
Proof.
  revert f. induction l1 as [|[column ty] l1 IH]; intros f; [reflexivity |].
  cbn [app df_astype]. unfold fbind.
  destruct (_format_colnames (df_columns f) column) as [e | name]; [reflexivity |].
  destruct (on_column name (fun E => @astype E name ty) f) as [f1 [e | u]];
    [reflexivity | apply IH].
Qed.

(** The number of entries and of history lines after a successful cast
    of a dictionary. *)
Lemma df_astype_success_counts (dtype : list (string * string)) (f f' : vDataFrame) :
  df_astype dtype f = (f', inr tt) ->
  (entries (df_columns f') = entries (df_columns f) + List.length dtype)%nat /\
  (List.length (df_history f') = List.length (df_history f) + List.length dtype)%nat.
Proof.
  revert f. induction dtype as [|[column ty] dtype IH]; intros f.
  - cbn. intros Eq. inversion Eq. lia.
  - cbn [df_astype]. unfold fbind.
    destruct (_format_colnames (df_columns f) column) as [x | name]; [discriminate |].
    pose proof (on_column_astype name ty f) as O.
    destruct (on_column name (fun E => @astype E name ty) f) as [f1 [x | u]];
      [discriminate |].
    destruct O as (t & e & line & C & Cols & Hist).
    intros R. apply IH in R. destruct R as [R1 R2]. rewrite R1, R2, Cols, Hist.
    pose proof (entries_set_chain name (t ++ [e]) t _ C) as S.
    rewrite length_snoc in S. rewrite length_snoc. cbn [List.length]. lia.
Qed.

(** X13.  The cast of a dictionary is not atomic: when the items of
    [done] have been cast and the next item fails, the call fails with
    the exception of that item in the dataframe the first casts have
    produced; these casts are kept and the items that follow are not
    looked at. *)
Theorem df_astype_stops_at_failure
        (done rest : list (string * string)) (item : string * string)
        (f f1 f2 : vDataFrame) (e : exn) :
  df_astype done f = (f1, inr tt) ->
  df_astype [item] f1 = (f2, inl e) ->
  df_astype (done ++ item :: rest) f = (f2, inl e) /\
  df_columns f2 = df_columns f1 /\
  (entries (df_columns f1) = entries (df_columns f) + List.length done)%nat.
Proof.
  intros D I.
  repeat split.
  - change (item :: rest) with ([item] ++ rest)%list.
    rewrite df_astype_app, D, df_astype_app, I. reflexivity.
  - destruct item as [column ty]. cbn [df_astype] in I. unfold fbind, fret in I.
    destruct (_format_colnames (df_columns f1) column) as [x | name];
      [now inversion I |].
    pose proof (on_column_astype name ty f1) as O.
    destruct (on_column name (fun E => @astype E name ty) f1) as [g [x | u]].
    + inversion I. subst. apply O.
    + discriminate I.
  - now apply (df_astype_success_counts done f f1).
Qed.

(** X14.  Whatever the outcome of the cast of a dictionary, the
    dataframe keeps its columns, in the same order, and no chain loses
    or changes an entry: the chain of every column is its former chain
    with, possibly, new entries behind it. *)
Theorem df_astype_append_only (dtype : list (string * string)) (f : vDataFrame) :
  map fst (df_columns (fst (df_astype dtype f))) = map fst (df_columns f) /\
  (forall name t,
      column_chain name (df_columns f) = Some t ->
      exists added,
        column_chain name (df_columns (fst (df_astype dtype f))) = Some (t ++ added)%list).
Proof.
  revert f. induction dtype as [|[column ty] dtype IH]; intros f.
  - cbn. split; [reflexivity |]. intros name t C. exists []. now rewrite app_nil_r.
  - cbn [df_astype]. unfold fbind.
    assert (Same : forall name t, column_chain name (df_columns f) = Some t ->
                                  exists added : list entry,
                                    column_chain name (df_columns f) = Some (t ++ added)%list).
    { intros name t C. exists []. now rewrite app_nil_r. }
    destruct (_format_colnames (df_columns f) column) as [x | found];
      [cbn [fst]; auto |].
    pose proof (on_column_astype found ty f) as O.
    destruct (on_column found (fun E => @astype E found ty) f) as [f1 [x | u]].
    + destruct O as [O _]. cbn [fst]. rewrite O. auto.
    + destruct O as (t0 & e & line & C0 & Cols & _).
      destruct (IH f1) as [Names Chains]. split.
      * rewrite Names, Cols. apply set_chain_names.
      * intros name t C.
        assert (C1 : exists added, column_chain name (df_columns f1) = Some (t ++ added)%list).
        { rewrite Cols. destruct (String.eqb_spec found name) as [-> | Ne].
          - rewrite (column_chain_set_same _ _ _ _ C0).
            rewrite C in C0. inversion C0. subst. eauto.
          - rewrite column_chain_set_other by exact Ne.
            exists []. now rewrite app_nil_r. }
        destruct C1 as [added1 C1].
        destruct (Chains _ _ C1) as [added2 C2].
        exists (added1 ++ added2)%list. now rewrite app_assoc.
Qed.

(** X15.  A successful cast of a dictionary has added exactly one entry
    and one history line per item: the dataframe holds as many more
    entries, and its history as many more lines, as the dictionary has
    items. *)
Theorem df_astype_counts (dtype : list (string * string)) (f f' : vDataFrame) :
  df_astype dtype f = (f', inr tt) ->
  (entries (df_columns f') = entries (df_columns f) + List.length dtype)%nat /\
  (List.length (df_history f') = List.length (df_history f) + List.length dtype)%nat.
Proof. apply df_astype_success_counts. Qed.

Lemma bool_to_int_loop_keeps (cols : list string) (c : string) (t : list entry) :
  declares_bool t = false ->
  forall f,
    column_chain c (df_columns f) = Some t ->
    column_chain c (df_columns (fst (bool_to_int_loop cols f))) = Some t.
Proof.
  intros B. induction cols as [|x cols IH]; intros f C; [exact C |].
  cbn [bool_to_int_loop]. unfold fbind.
  rewrite (on_column_read x _ isbool f isbool_read).
  destruct (column_chain x (df_columns f)) as [tx|] eqn:Cx; [| exact C].
  unfold of_last.
  destruct (last_entry tx) as [e | e] eqn:L; [exact C |].
  destruct (slice 0 4 (lower (declared e)) =? "bool") eqn:Bx.
  - assert (Ne : x <> c).
    { intros ->. rewrite C in Cx. inversion Cx. subst tx.
      unfold declares_bool in B. rewrite L in B. congruence. }
    pose proof (on_column_astype x "int" f) as O.
    destruct (on_column x (fun E => @astype E x "int") f) as [f1 [err | u]].
    + destruct O as [O _]. cbn [fst]. now rewrite O.
    + destruct O as (t0 & en & line & _ & Cols & _).
      apply IH. rewrite Cols. now rewrite column_chain_set_other.
  - unfold fret. now apply IH.
Qed.

(** X16.  [bool_to_int] leaves every column that does not declare a
    boolean type as it is: whatever the outcome of the call, the chain
    of such a column is not touched. *)
Theorem bool_to_int_keeps_other_columns (f : vDataFrame) (c : string) (t : list entry) :
  column_chain c (df_columns f) = Some t ->
  declares_bool t = false ->
  column_chain c (df_columns (fst (bool_to_int f))) = Some t.
Proof.
  intros C B. unfold bool_to_int. now apply bool_to_int_loop_keeps.
Qed.

(** The columns a reading loop selects pass its test. *)
Lemma collect_read (test : M bool) (read : list entry -> exn + bool) :
  (forall w, test w = (w, read (_transf w))) ->
  forall cols columns f,
    fst (collect test cols columns f) = f /\
    (forall selected,
        snd (collect test cols columns f) = inr selected ->
        forall c, In c selected ->
                  In c columns \/
                  exists t, column_chain c (df_columns f) = Some t /\ read t = inr true).
Proof.
  intros R. induction cols as [|x cols IH]; intros columns f.
  - cbn. split; [reflexivity |]. intros selected Eq. inversion Eq. auto.
  - cbn [collect]. unfold fbind. rewrite (on_column_read x read test f R).
    destruct (column_chain x (df_columns f)) as [tx|] eqn:Cx;
      [| cbn; split; [reflexivity | discriminate]].
    destruct (read tx) as [e | b] eqn:Rx; [cbn; split; [reflexivity | discriminate] |].
    destruct (IH (if b then columns ++ [x] else columns)%list f) as [F S].
    split; [exact F |].
    intros selected Eq c I. destruct (S selected Eq c I) as [Old | New]; [| now right].
    destruct b; [| now left].
    apply in_app_or in Old. destruct Old as [Old | [<- | []]]; [now left |].
    right. exists tx. auto.
Qed.

(** X17.  [datecol] and [numcol] only read: they send no query and
    leave the dataframe as it is, even when they fail; and no column is
    in both lists. *)
Theorem datecol_numcol_disjoint (f : vDataFrame) (exclude_columns : list string) :
  fst (datecol f) = f /\
  fst (numcol exclude_columns f) = f /\
  (forall dates numbers,
      snd (datecol f) = inr dates ->
      snd (numcol exclude_columns f) = inr numbers ->
      forall c, In c dates -> ~ In c numbers).
Proof.
  unfold datecol, numcol.
  destruct (collect_read isdate _ isdate_read
              (get_columns (df_columns f) None) [] f) as [F1 S1].
  destruct (collect_read isnum _ isnum_read
              (get_columns (df_columns f) (Some exclude_columns)) [] f) as [F2 S2].
  repeat split; try assumption.
  intros dates numbers D N c Id In_.
  destruct (S1 dates D c Id) as [[] | (t & C & Rd)].
  destruct (S2 numbers N c In_) as [[] | (t' & C' & Rn)].
  rewrite C in C'. inversion C'. subst t'. unfold of_last in Rd, Rn.
  destruct (last_entry t) as [e | e]; [discriminate |].
  inversion Rd as [Kd]. inversion Rn as [Kn].
  apply String.eqb_eq in Kd. rewrite Kd in Kn. discriminate Kn.
Qed.

(** The test of one column by [catcol]: either the engine is asked,
    once, about a column of category [int] that is not boolean, or
    nothing is sent and the answer is whether the category is not
    [float]. *)
Lemma is_cat_answer (column : string) (max_cardinality : Z) (f f' : vDataFrame) (b : bool) :
  is_cat column max_cardinality f = (f', inr b) ->
  if int_not_bool (df_columns f) column
  then f' = DataFrame (df_columns f)
                      (df_queries f ++
                       [catcol_query column max_cardinality (view (df_columns f))])
                      (df_history f)
  else f' = f /\ b = negb (has_category (df_columns f) "float" column).
Proof.
  unfold is_cat, fbind, int_not_bool, has_category.
  rewrite (on_column_read column _ category f category_read).
  destruct (column_chain column (df_columns f)) as [t|] eqn:C; [| discriminate].
  unfold of_last, declares_bool.
  destruct (last_entry t) as [e | e] eqn:L; [discriminate |].
  destruct (categ e =? "int") eqn:K.
  - rewrite (on_column_read column _ isbool f isbool_read), C. unfold of_last. rewrite L.
    unfold fret. cbn [andb].
    destruct (slice 0 4 (lower (declared e)) =? "bool") eqn:B; cbn [negb].
    + rewrite (on_column_read column _ category f category_read), C.
      unfold of_last. rewrite L. intros Eq. inversion Eq. auto.
    + unfold df_executeSQL.
      destruct (execute_truth (df_queries f)
                  (catcol_query column max_cardinality (view (df_columns f))));
        [discriminate |].
      intros Eq. now inversion Eq.
  - unfold fret. cbn [andb].
    rewrite (on_column_read column _ category f category_read), C.
    unfold of_last. rewrite L. intros Eq. inversion Eq. auto.
Qed.

Lemma int_is_not_float (columns : list (string * list entry)) (column : string) :
  int_not_bool columns column = true -> has_category columns "float" column = false.
Proof.
  unfold int_not_bool, has_category.
  destruct (column_chain column columns) as [t|]; [| reflexivity].
  destruct (last_entry t) as [e | e]; [reflexivity |].
  intros H. apply andb_true_iff in H. destruct H as [K _].
  apply String.eqb_eq in K. now rewrite K.
Qed.

Lemma catcol_loop_answer (max_cardinality : Z) (cols : list string) :
  forall columns f f' selected,
    catcol_loop max_cardinality cols columns f = (f', inr selected) ->
    df_columns f' = df_columns f /\
    df_history f' = df_history f /\
    df_queries f' =
      (df_queries f ++
       map (fun c => catcol_query c max_cardinality (view (df_columns f)))
           (filter (int_not_bool (df_columns f)) cols))%list /\
    (forall c, In c selected ->
               In c columns \/ has_category (df_columns f) "float" c = false).
Proof.
  induction cols as [|x cols IH]; intros columns f f' selected.
  - cbn. intros Eq. inversion Eq. subst. rewrite app_nil_r. auto.
  - cbn [catcol_loop]. unfold fbind.
    destruct (is_cat x max_cardinality f) as [f1 [e | b]] eqn:A; [discriminate |].
    apply is_cat_answer in A. intros R. apply IH in R.
    destruct R as (R1 & R2 & R3 & R4).
    cbn [filter].
    destruct (int_not_bool (df_columns f) x) eqn:I.
    + subst f1. cbn [df_columns df_history df_queries] in *.
      repeat split; try assumption.
      * rewrite R3. cbn [map]. now rewrite <- app_assoc.
      * intros c In_. destruct (R4 c In_) as [Old | New]; [| now right].
        destruct b; [| now left].
        apply in_app_or in Old. destruct Old as [Old | [<- | []]]; [now left |].
        right. now apply int_is_not_float.
    + destruct A as [-> ->]. repeat split; try assumption.
      intros c In_. destruct (R4 c In_) as [Old | New]; [| now right].
      destruct (has_category (df_columns f) "float" x) eqn:Fl; cbn [negb] in Old;
        [now left |].
      apply in_app_or in Old. destruct Old as [Old | [<- | []]]; [now left | now right].
Qed.

(** X18.  A successful [catcol] has asked the engine exactly once for
    each listed column of category [int] that is not boolean, in the
    order of the columns, and has sent nothing else; it changes neither
    the columns nor the history; and a column of category [float] is
    never in its result. *)
Theorem catcol_queries (max_cardinality : Z) (f f' : vDataFrame) (selected : list string) :
  catcol max_cardinality f = (f', inr selected) ->
  df_columns f' = df_columns f /\
  df_history f' = df_history f /\
  df_queries f' =
    (df_queries f ++
     map (fun c => catcol_query c max_cardinality (view (df_columns f)))
         (filter (int_not_bool (df_columns f)) (get_columns (df_columns f) None)))%list /\
  (forall c, In c selected -> has_category (df_columns f) "float" c = false).
Proof.
  unfold catcol. intros R. apply catcol_loop_answer in R.
  destruct R as (R1 & R2 & R3 & R4). repeat split; try assumption.
  intros c I. destruct (R4 c I) as [[] | K]. exact K.
Qed.

End DataFrameFacts.

(** * Examples for the connection file and the dataframe *)

Section ReadExamples.

Import Connect.





(** X5, witness: a first flag [Env = Yes] and a later one that says no. *)
Lemma env_flag_first_witness :
  (forall o, In o [("host", "10.0.0.1")] -> startswith (lower (fst o)) "env" = false) /\
  startswith (lower "Env") "env" = true /\
  env_flag ([("host", "10.0.0.1")] ++ ("Env", "Yes") :: [("env_too", "no")]) = truthy "Yes".
Proof.
  assert (B : forall o : string * string,
             In o [("host", "10.0.0.1")] -> startswith (lower (fst o)) "env" = false).
  { intros o [<- | []]. reflexivity. }
  split; [exact B | split; [reflexivity |]].
  apply (env_flag_first [("host", "10.0.0.1")] [("env_too", "no")] "Env" "Yes" B).
  reflexivity.
Defined.


(** X7, witness: the section [prod] when [VERTICA_PWD] is not set. *)
Lemma read_dsn_missing_variable_witness :
  env_flag (items (@get_confparser bare_host "") "prod") = true /\
  In ("pwd", "VERTICA_PWD") (items (@get_confparser bare_host "") "prod") /\
  in_tuple (lower "pwd") ["pwd"; "password"; "uid"; "user"] = true /\
  @getenv bare_host "VERTICA_PWD" = None /\
  exists e, @read_dsn bare_host "prod" "" = inl e.
Proof.
  assert (I : In ("pwd", "VERTICA_PWD") (items (@get_confparser bare_host "") "prod")).
  { cbn. auto 10. }
  split; [reflexivity | split; [exact I | split; [reflexivity | split; [reflexivity |]]]].
  apply (@read_dsn_missing_variable bare_host "prod" "" "pwd" "VERTICA_PWD");
    [reflexivity | exact I | reflexivity | reflexivity].
Defined.

(** X8, witness: the three sections of the example file. *)
Lemma available_connections_hides_auto_witness :
  NoDup (sections (@get_confparser host "")) /\
  (In "prod" (@available_connections host) <->
   In "prod" (sections (@get_confparser host "")) /\
   "prod" <> @VERTICAPY_AUTO_CONNECTION host).
Proof.
  assert (N : NoDup (sections (@get_confparser host ""))).
  { cbn. repeat constructor; cbn; intuition discriminate. }
  split; [exact N |].
  apply (@available_connections_hides_auto host N).
Defined.

End ReadExamples.




(** X13, witness: the column [name] is cast, then an unknown column
    stops the call; [fare] is not reached. *)
Lemma df_astype_stops_at_failure_witness :
  snd (@df_astype sample_table [("Name", "vmap")] titanic) = inr tt /\
  snd (@df_astype sample_table [("nope", "int")]
         (fst (@df_astype sample_table [("Name", "vmap")] titanic))) =
    inl (Exn IndexError "no column nope") /\
  @df_astype sample_table ([("Name", "vmap")] ++ ("nope", "int") :: [("fare", "int")])
             titanic =
  (fst (@df_astype sample_table [("nope", "int")]
          (fst (@df_astype sample_table [("Name", "vmap")] titanic))),
   inl (Exn IndexError "no column nope")).
Proof.
  split; [reflexivity | split; [reflexivity |]].
  apply (@df_astype_stops_at_failure sample_table
           [("Name", "vmap")] [("fare", "int")] ("nope", "int") titanic
           (fst (@df_astype sample_table [("Name", "vmap")] titanic))
           (fst (@df_astype sample_table [("nope", "int")]
                   (fst (@df_astype sample_table [("Name", "vmap")] titanic))))
           (Exn IndexError "no column nope") eq_refl eq_refl).
Defined.

(** X15, witness: two columns are cast. *)
Lemma df_astype_counts_witness :
  snd (@df_astype sample_table [("name", "vmap"); ("fare", "float")] titanic) = inr tt /\
  entries (df_columns
             (fst (@df_astype sample_table [("name", "vmap"); ("fare", "float")] titanic))) =
    (entries (df_columns titanic) + 2)%nat.
Proof.
  assert (R : @df_astype sample_table [("name", "vmap"); ("fare", "float")] titanic =
              (fst (@df_astype sample_table [("name", "vmap"); ("fare", "float")] titanic),
               inr tt))
    by (vm_compute; reflexivity).
  split; [vm_compute; reflexivity |].
  apply (@df_astype_counts sample_table _ _ _ R).
Defined.

(** X16, witness: the text column [name] of the example. *)
Lemma bool_to_int_keeps_other_columns_witness :
  column_chain "name" (df_columns titanic) = Some [Entry "{}" "varchar(164)" "text"] /\
  declares_bool [Entry "{}" "varchar(164)" "text"] = false /\
  column_chain "name" (df_columns (fst (@bool_to_int sample_table titanic))) =
    Some [Entry "{}" "varchar(164)" "text"].
Proof.
  split; [reflexivity | split; [reflexivity |]].
  apply (@bool_to_int_keeps_other_columns sample_table titanic "name"
           [Entry "{}" "varchar(164)" "text"] eq_refl eq_refl).
Defined.

(** X18, witness: of the five columns of the example only [pclass] is
    asked about; [fare] is left out. *)
Lemma catcol_queries_witness :
  snd (@catcol sample_table 12 titanic) = inr ["survived"; "name"; "pclass"; "boat"] /\
  df_queries (fst (@catcol sample_table 12 titanic)) =
    (df_queries titanic ++
     map (fun c => catcol_query c 12 (@view sample_table (df_columns titanic)))
         (filter (int_not_bool (df_columns titanic))
                 (@get_columns sample_table (df_columns titanic) None)))%list.
Proof.
  assert (R : @catcol sample_table 12 titanic =
              (fst (@catcol sample_table 12 titanic),
               inr ["survived"; "name"; "pclass"; "boat"]))
    by (vm_compute; reflexivity).
  split; [vm_compute; reflexivity |].
  destruct (@catcol_queries sample_table 12 titanic _ _ R) as (_ & _ & Q & _).
  exact Q.
Defined.

(** * Reading back a cast *)

Section CastRoundTrip.

Context {E : Env}.

(** X19.  After a successful cast the accessors return what was cast:
    [ctype] is the recorded type in lower case and [category] is its
    classification. *)
Theorem astype_then_accessors (_alias dtype : string) (w w' : world) :
  astype _alias dtype w = (w', inr tt) ->
  ctype w' = (w', inr (lower (recorded_dtype (to_sql_dtype dtype) w))) /\
  category w' = (w', inr (to_category (recorded_dtype (to_sql_dtype dtype) w))).
Proof.
  intros A. apply astype_success in A.
  destruct A as (w1 & t2 & d' & expression & rows & HC & _ & _ & ->).
  apply choose_transformation_dtype in HC. subst d'.
  split; [apply ctype_snoc | apply category_snoc].
Qed.

End CastRoundTrip.

(** X19, witness: the text column of the scenarios is cast to [json] and
    read back as [varchar], of category [text]. *)
Lemma astype_then_accessors_witness :
  snd (@astype (modern None None) "age" "json" text_column) = inr tt /\
  ctype (fst (@astype (modern None None) "age" "json" text_column)) =
    (fst (@astype (modern None None) "age" "json" text_column), inr "varchar") /\
  category (fst (@astype (modern None None) "age" "json" text_column)) =
    (fst (@astype (modern None None) "age" "json" text_column), inr "text").
Proof.
  split; [reflexivity |].
  apply (@astype_then_accessors (modern None None) "age" "json" text_column
           (fst (@astype (modern None None) "age" "json" text_column)) eq_refl).
Defined.
